(** * Embedding service: a shallow embedding of [main.py]

    The service is a FastAPI application with two HTTP middlewares
    ([auth_middleware], [cors_middleware]) and five endpoints ([health],
    [embed], [embed_batch], [model_info], [options_handler]) over one global
    [model].  Python's module globals, the lines written by [print] and the
    calls made to the external model are threaded through a state-and-exception
    monad; the framework (routing, body validation, exception handlers,
    middleware order) is written out as far as the endpoints depend on it.

    Left out: the bytes on the wire (a response is its status, the content
    it was built from and its headers), the documentation routes FastAPI adds
    on its own, the redirect the router offers for a path that matches no
    route but would with its trailing slash added or removed, and [PORT]. *)

From Stdlib Require Import Floats.PrimFloat Ascii.
From stdpp Require Import base option strings list gmap pretty.

Open Scope string_scope.
Open Scope Z_scope.
Set Warnings "-register-all".

(** ** JSON values (request bodies and [JSONResponse] contents) *)

Inductive json :=
| JNull
| JBool (b : bool)
| JInt (n : Z)
| JFloat (x : float)
| JStr (s : string)
| JArr (items : list json)
| JObj (fields : list (string * json)).

(** [d.get(k)] on the dict read from a JSON object: a later binding of a key
    replaces an earlier one. *)
Fixpoint dict_get (k : string) (fields : list (string * json)) : option json :=
  match fields with
  | [] => None
  | (k', v) :: rest =>
      match dict_get k rest with
      | Some v' => Some v'
      | None => if decide (k' = k) then Some v else None
      end
  end.

(** ** Exceptions *)

Inductive exn :=
| HTTPException (status_code : Z) (detail : string)
| RequestValidationError (errors : list json)
| Exception (message : string).

(** [str(e)] *)
Definition str (e : exn) : string :=
  match e with
  | HTTPException status_code detail => pretty status_code +:+ ": " +:+ detail
  | RequestValidationError errors => "RequestValidationError"
  | Exception message => message
  end.

(** ** The external model: [sentence_transformers.SentenceTransformer]

    [encode] is the call [model.encode(text, convert_to_numpy=True)] on one
    string followed by [.tolist()], [encode_batch] the same call on a list of
    strings; either may raise. *)

Record SentenceTransformer := {
  encode : string → exn + list float;
  encode_batch : list string → exn + list (list float);
  get_sentence_embedding_dimension : nat
}.

(** ** Module globals and observable effects *)

Definition MODEL_NAME : string := "intfloat/multilingual-e5-large".

Inductive event :=
| Stdout (line : string)
| Encode (text : string)
| EncodeBatch (texts : list string)
| LoadModel (name : string).

Record World := {
  AUTH_TOKEN : option string;          (* os.getenv("EMBEDDING_AUTH_TOKEN") *)
  model : option SentenceTransformer;  (* global model instance *)
  trace : list event                   (* effects so far, oldest first *)
}.

Definition set_model (m : option SentenceTransformer) (w : World) : World :=
  {| AUTH_TOKEN := AUTH_TOKEN w; model := m; trace := trace w |}.

Definition emit (e : event) (w : World) : World :=
  {| AUTH_TOKEN := AUTH_TOKEN w; model := model w; trace := trace w ++ [e] |}.

(** ** The monad: state passing with exceptions *)

Inductive outcome (A : Type) :=
| Ok (a : A)
| Raised (e : exn).
Arguments Ok {A} a.
Arguments Raised {A} e.

Definition M (A : Type) : Type := World → outcome A * World.

#[global] Instance M_ret : MRet M := λ A a w, (Ok a, w).

#[global] Instance M_bind : MBind M := λ A B f c w,
  match c w with
  | (Ok a, w') => f a w'
  | (Raised e, w') => (Raised e, w')
  end.

Definition raise {A} (e : exn) : M A := λ w, (Raised e, w).

Definition gets {A} (f : World → A) : M A := λ w, (Ok (f w), w).

Definition modify (f : World → World) : M unit := λ w, (Ok tt, f w).

(** [try: body / except Exception as e: handler e] *)
Definition try_except {A} (body : M A) (handler : exn → M A) : M A := λ w,
  match body w with
  | (Ok a, w') => (Ok a, w')
  | (Raised e, w') => handler e w'
  end.

Definition print (line : string) : M unit := modify (emit (Stdout line)).

(** A call into the external library: the call is recorded, then it returns
    or raises. *)
Definition call {A} (e : event) (r : exn + A) : M A := λ w,
  match r with
  | inl err => (Raised err, emit e w)
  | inr a => (Ok a, emit e w)
  end.

(** Python truthiness of an [Optional[str]]: [None] and [""] are falsy. *)
Definition truthy (o : option string) : bool :=
  match o with
  | Some s => negb (String.eqb s "")
  | None => false
  end.

(** [f"{x}"] for an [Optional[str]] *)
Definition format (o : option string) : string :=
  match o with
  | Some s => s
  | None => "None"
  end.

(** An [exn + A] of the outside world, run: it raises or returns. *)
Definition lift {A} (r : exn + A) : M A :=
  match r with
  | inl e => raise e
  | inr a => mret a
  end.

(** [s.lower()] on the ASCII letters, as header names are. *)
Definition lower_ascii (c : ascii) : ascii :=
  let n := nat_of_ascii c in
  if ((65 <=? n) && (n <=? 90))%nat then ascii_of_nat (n + 32) else c.

Fixpoint lower (s : string) : string :=
  match s with
  | EmptyString => EmptyString
  | String c rest => String (lower_ascii c) (lower rest)
  end.

Definition newline : ascii := "010"%char.

(** ** Requests and responses *)

(** What reading the body of a request gives. *)
Inductive Body :=
| JSON (document : json)   (* the bytes are this JSON document *)
| NoBody                   (* no bytes at all *)
| InvalidJSON (pos : Z)    (* [json.JSONDecodeError] at [pos] *)
| Unreadable               (* the read fails otherwise: bytes that are not UTF-8 *)
| NotJSON.                 (* sent under a content type that is not JSON *)

(** [path] is the path of the ASGI scope, the one the router matches on.
    [url_path] is what evaluating [request.url.path] gives: Starlette builds
    the URL again from the [Host] header, the scope path and the query string,
    and splits it with [urlsplit], so the result may differ from [path]
    (a [Host] holding [/] or [?], a tab in the path) and the evaluation may
    raise [ValueError] (a [Host] holding an unmatched bracket).  [headers]
    maps a header name, spelled as the code spells it (["Authorization"]), to
    the value [request.headers.get] returns for it. *)
Record Request := {
  method : string;
  path : string;
  url_path : exn + string;
  headers : gmap string string;
  body : Body
}.

(** [content] is what the response was built from: the object handed to
    [JSONResponse], the text handed to [PlainTextResponse].  The header names
    are kept in lower case, as Starlette keeps them. *)
Record Response := {
  status_code : Z;
  content : json;
  response_headers : gmap string string
}.

Definition JSONResponse (status_code : Z) (content : json) : Response :=
  {| status_code := status_code;
     content := content;
     response_headers := {[ "content-type" := "application/json" ]} |}.

Definition PlainTextResponse (status_code : Z) (text : string) : Response :=
  {| status_code := status_code;
     content := JStr text;
     response_headers := {[ "content-type" := "text/plain; charset=utf-8" ]} |}.

(** [response.headers[k] = v]: the name is lowered, an earlier value under
    the same name is replaced. *)
Definition set_header (k v : string) (r : Response) : Response :=
  {| status_code := status_code r;
     content := content r;
     response_headers := <[ lower k := v ]> (response_headers r) |}.

(** [response.headers.get(k)] *)
Definition get_header (k : string) (r : Response) : option string :=
  response_headers r !! lower k.

(** ** Request and response models (pydantic)

    [validate] is what FastAPI does with the body before the endpoint is
    called: the read, then the check against the request model.  It gives the
    validated model or the exception raised instead; of a validation error
    only its location and kind are kept.  [dump] is the JSON object sent for a
    returned model, fields in declaration order. *)

Definition validation_error (loc : list json) (kind : string) : json :=
  JObj [("loc", JArr loc); ("type", JStr kind)].

(** The document handed to the request model, or what is raised before. *)
Definition read_body (body : Body) : exn + json :=
  match body with
  | JSON JNull | NoBody =>
      inl (RequestValidationError [validation_error [JStr "body"] "missing"])
  | JSON document => inr document
  | InvalidJSON pos =>
      inl (RequestValidationError
             [validation_error [JStr "body"; JInt pos] "json_invalid"])
  | Unreadable => inl (HTTPException 400 "There was an error parsing the body")
  | NotJSON =>
      inl (RequestValidationError
             [validation_error [JStr "body"] "model_attributes_type"])
  end.

Module EmbedRequest.
Record t := { text : string }.

(** [text: str = Field(..., min_length=1)] *)
Definition validate (body : Body) : exn + t :=
  match read_body body with
  | inl e => inl e
  | inr (JObj fields) =>
      match dict_get "text" fields with
      | Some (JStr s) =>
          if decide (1 ≤ String.length s)%nat then inr {| text := s |}
          else inl (RequestValidationError
                      [validation_error [JStr "body"; JStr "text"] "string_too_short"])
      | Some _ =>
          inl (RequestValidationError
                 [validation_error [JStr "body"; JStr "text"] "string_type"])
      | None =>
          inl (RequestValidationError
                 [validation_error [JStr "body"; JStr "text"] "missing"])
      end
  | inr _ =>
      inl (RequestValidationError
             [validation_error [JStr "body"] "model_attributes_type"])
  end.
End EmbedRequest.

Module EmbedBatchRequest.
Record t := { texts : list string }.

(** Each item of a [List[str]] must be a string. *)
Fixpoint strings (items : list json) : option (list string) :=
  match items with
  | [] => Some []
  | JStr s :: rest => cons s <$> strings rest
  | _ :: _ => None
  end.

(** One error for each item that is no string, at its index. *)
Fixpoint item_errors (i : nat) (items : list json) : list json :=
  match items with
  | [] => []
  | JStr _ :: rest => item_errors (S i) rest
  | _ :: rest =>
      validation_error [JStr "body"; JStr "texts"; JInt (Z.of_nat i)] "string_type"
      :: item_errors (S i) rest
  end.

(** [texts: List[str] = Field(..., min_items=1)] *)
Definition validate (body : Body) : exn + t :=
  match read_body body with
  | inl e => inl e
  | inr (JObj fields) =>
      match dict_get "texts" fields with
      | Some (JArr items) =>
          match strings items with
          | Some l =>
              if decide (1 ≤ length l)%nat then inr {| texts := l |}
              else inl (RequestValidationError
                          [validation_error [JStr "body"; JStr "texts"] "too_short"])
          | None => inl (RequestValidationError (item_errors 0 items))
          end
      | Some _ =>
          inl (RequestValidationError
                 [validation_error [JStr "body"; JStr "texts"] "list_type"])
      | None =>
          inl (RequestValidationError
                 [validation_error [JStr "body"; JStr "texts"] "missing"])
      end
  | inr _ =>
      inl (RequestValidationError
             [validation_error [JStr "body"] "model_attributes_type"])
  end.
End EmbedBatchRequest.

(** A float as it is sent: a number, or [null] for NaN and the infinities. *)
Definition json_float (x : float) : json :=
  if is_finite x then JFloat x else JNull.

Module EmbedResponse.
Record t := { embedding : list float; dimensions : Z; model : string }.

Definition dump (r : t) : json :=
  JObj [("embedding", JArr (json_float <$> embedding r));
        ("dimensions", JInt (dimensions r));
        ("model", JStr (model r))].
End EmbedResponse.

Module EmbedBatchResponse.
Record t := { embeddings : list (list float); dimensions : Z; model : string }.

Definition dump (r : t) : json :=
  JObj [("embeddings", JArr ((λ v, JArr (json_float <$> v)) <$> embeddings r));
        ("dimensions", JInt (dimensions r));
        ("model", JStr (model r))].
End EmbedBatchResponse.

Module HealthResponse.
Record t := { status : string; service : string; model : string; dimensions : Z }.

Definition dump (r : t) : json :=
  JObj [("status", JStr (status r));
        ("service", JStr (service r));
        ("model", JStr (model r));
        ("dimensions", JInt (dimensions r))].
End HealthResponse.

Module ModelInfoResponse.
Record t := { name : string; dimensions : Z; loaded : bool; languages : string }.

Definition dump (r : t) : json :=
  JObj [("name", JStr (name r));
        ("dimensions", JInt (dimensions r));
        ("loaded", JBool (loaded r));
        ("languages", JStr (languages r))].
End ModelInfoResponse.

(** ** Lifespan: the model is loaded once, at startup *)

(** [load] is the constructor [SentenceTransformer(MODEL_NAME)] of the external
    library, [serving] what the application does at [yield].  A failing load
    is printed and raised again: [model] keeps its value and nothing is
    served. *)
Definition lifespan {A} (load : string → exn + SentenceTransformer)
    (serving : M A) : M A :=
  print "[Embedding Service] 🚀 Starting embedding service...";;
  print ("[Embedding Service] 📦 Loading model: " +:+ MODEL_NAME);;
  print "[Embedding Service] ⏳ This may take 30-60 seconds on first run...";;
  try_except
    (m ← call (LoadModel MODEL_NAME) (load MODEL_NAME);
     modify (set_model (Some m));;
     print "[Embedding Service] ✅ Model loaded successfully!";;
     print ("[Embedding Service] 📊 Dimensions: "
            +:+ pretty (get_sentence_embedding_dimension m));;
     print "[Embedding Service] 🌍 Languages: 100+")
    (λ e,
     print ("[Embedding Service] ❌ Failed to load model: " +:+ str e);;
     raise e);;
  served ← serving;
  print "[Embedding Service] 👋 Shutting down embedding service...";;
  mret served.

(** ** Middleware *)

(** Validate bearer token authentication (skip for /health). *)
Definition auth_middleware (request : Request)
    (call_next : Request → M Response) : M Response :=
  url_path ← lift (url_path request);
  if decide (url_path = "/health") then call_next request
  else
    token ← gets AUTH_TOKEN;
    if negb (truthy token) then call_next request
    else
      let auth_header := headers request !! "Authorization" in
      if negb (truthy auth_header)
         || bool_decide (auth_header ≠ Some ("Bearer " +:+ format token))
      then mret (JSONResponse 401 (JObj [("error", JStr "Unauthorized")]))
      else call_next request.

(** Add CORS headers to all responses. *)
Definition cors_middleware (request : Request)
    (call_next : Request → M Response) : M Response :=
  response ← call_next request;
  let response := set_header "Access-Control-Allow-Origin" "*" response in
  let response := set_header "Access-Control-Allow-Methods" "GET, POST, OPTIONS" response in
  let response :=
    set_header "Access-Control-Allow-Headers" "Content-Type, Authorization" response in
  mret response.

(** ** Endpoints *)

Definition health : M HealthResponse.t :=
  mret {| HealthResponse.status := "healthy";
          HealthResponse.service := "embedding-service";
          HealthResponse.model := MODEL_NAME;
          HealthResponse.dimensions := 1024 |}.

Definition embed (request : EmbedRequest.t) : M EmbedResponse.t :=
  m ← gets model;
  match m with
  | None => raise (HTTPException 503 "Model not loaded")
  | Some model =>
      try_except
        (let text := EmbedRequest.text request in
         embedding_list ← call (Encode text) (encode model text);
         print ("[Embedding Service] ✅ Generated "
                +:+ pretty (length embedding_list) +:+ "-dimensional embedding");;
         mret {| EmbedResponse.embedding := embedding_list;
                 EmbedResponse.dimensions := Z.of_nat (length embedding_list);
                 EmbedResponse.model := MODEL_NAME |})
        (λ e,
         print ("[Embedding Service] ❌ Error generating embedding: " +:+ str e);;
         raise (HTTPException 500 ("Failed to generate embedding: " +:+ str e)))
  end.

(** [l[0]] *)
Definition item0 {A} (l : list A) : M A :=
  match l !! 0%nat with
  | Some x => mret x
  | None => raise (Exception "list index out of range")
  end.

(** Truthiness of a list: [[]] is falsy. *)
Definition nonempty {A} (l : list A) : bool :=
  match l with
  | [] => false
  | _ :: _ => true
  end.

Definition embed_batch (request : EmbedBatchRequest.t) : M EmbedBatchResponse.t :=
  m ← gets model;
  match m with
  | None => raise (HTTPException 503 "Model not loaded")
  | Some model =>
      try_except
        (let texts := EmbedBatchRequest.texts request in
         embeddings_list ← call (EncodeBatch texts) (encode_batch model texts);
         print ("[Embedding Service] ✅ Generated "
                +:+ pretty (length embeddings_list) +:+ " embeddings");;
         dimensions ←
           (if nonempty embeddings_list
            then first ← item0 embeddings_list; mret (Z.of_nat (length first))
            else mret 0);
         mret {| EmbedBatchResponse.embeddings := embeddings_list;
                 EmbedBatchResponse.dimensions := dimensions;
                 EmbedBatchResponse.model := MODEL_NAME |})
        (λ e,
         print ("[Embedding Service] ❌ Error generating batch embeddings: " +:+ str e);;
         raise (HTTPException 500 ("Failed to generate embeddings: " +:+ str e)))
  end.

Definition model_info : M ModelInfoResponse.t :=
  m ← gets model;
  mret {| ModelInfoResponse.name := MODEL_NAME;
          ModelInfoResponse.dimensions := 1024;
          ModelInfoResponse.loaded := bool_decide (m ≠ None);
          ModelInfoResponse.languages := "100+" |}.

(** Handle CORS preflight requests. *)
Definition options_handler : M Response :=
  mret (JSONResponse 204 (JObj [])).

(** ** Routing

    The routes of [main.py] in the order they are declared.  A route whose path
    matches but whose method does not is a partial match; the first full match
    runs, else the first partial match answers 405, else 404. *)

Inductive endpoint :=
| ep_health | ep_embed | ep_embed_batch | ep_model_info | ep_options_handler.

Inductive pattern :=
| Literal (p : string)                 (* "/health": the regex ^/health$ *)
| PathParam (prefix : string).         (* "/{path:path}": ^/ then .* then $ *)

Record Route := {
  route_path : pattern;
  route_methods : list string;
  route_endpoint : endpoint
}.

Definition routes : list Route :=
  [ {| route_path := Literal "/health"; route_methods := ["GET"];
       route_endpoint := ep_health |};
    {| route_path := Literal "/embed"; route_methods := ["POST"];
       route_endpoint := ep_embed |};
    {| route_path := Literal "/embed/batch"; route_methods := ["POST"];
       route_endpoint := ep_embed_batch |};
    {| route_path := Literal "/model/info"; route_methods := ["GET"];
       route_endpoint := ep_model_info |};
    {| route_path := PathParam "/"; route_methods := ["OPTIONS"];
       route_endpoint := ep_options_handler |} ].

Inductive Match := NONE | PARTIAL | FULL.

(** [s] with the prefix [p] taken off. *)
Fixpoint strip_prefix (p s : string) : option string :=
  match p, s with
  | EmptyString, _ => Some s
  | String a p', String b s' => if decide (a = b) then strip_prefix p' s' else None
  | String _ _, EmptyString => None
  end.

(** [$] matches at the end of the string and before a newline that ends it. *)
Definition at_end (s : string) : bool :=
  bool_decide (s = EmptyString) || bool_decide (s = String newline EmptyString).

(** [.*$]: characters other than the newline, then [$]. *)
Fixpoint rest_of_line (s : string) : bool :=
  match s with
  | EmptyString => true
  | String c rest =>
      if decide (c = newline) then bool_decide (rest = EmptyString)
      else rest_of_line rest
  end.

(** No character of [s] is the newline. *)
Fixpoint no_newline (s : string) : bool :=
  match s with
  | EmptyString => true
  | String c rest => if decide (c = newline) then false else no_newline rest
  end.

(** The path regex of a route, matched from the start of the path. *)
Definition path_matches (p : pattern) (s : string) : bool :=
  match p with
  | Literal l =>
      match strip_prefix l s with
      | Some rest => at_end rest
      | None => false
      end
  | PathParam prefix =>
      match strip_prefix prefix s with
      | Some rest => rest_of_line rest
      | None => false
      end
  end.

Definition matches (r : Route) (request : Request) : Match :=
  if path_matches (route_path r) (path request) then
    if bool_decide (method request ∈ route_methods r) then FULL else PARTIAL
  else NONE.

(** What FastAPI does around an endpoint: the body is read and validated
    against the request model before the endpoint runs, and a returned model
    is sent as a 200 JSON response. *)
Definition run_endpoint (e : endpoint) (request : Request) : M Response :=
  match e with
  | ep_health =>
      r ← health; mret (JSONResponse 200 (HealthResponse.dump r))
  | ep_embed =>
      match EmbedRequest.validate (body request) with
      | inl e => raise e
      | inr req => r ← embed req; mret (JSONResponse 200 (EmbedResponse.dump r))
      end
  | ep_embed_batch =>
      match EmbedBatchRequest.validate (body request) with
      | inl e => raise e
      | inr req =>
          r ← embed_batch req; mret (JSONResponse 200 (EmbedBatchResponse.dump r))
      end
  | ep_model_info =>
      r ← model_info; mret (JSONResponse 200 (ModelInfoResponse.dump r))
  | ep_options_handler => options_handler
  end.

Fixpoint dispatch (rs : list Route) (partial : option Route) (request : Request)
    : M Response :=
  match rs with
  | [] =>
      match partial with
      | Some _ => raise (HTTPException 405 "Method Not Allowed")
      | None => raise (HTTPException 404 "Not Found")
      end
  | r :: rest =>
      match matches r request with
      | FULL => run_endpoint (route_endpoint r) request
      | PARTIAL =>
          dispatch rest (match partial with Some p => Some p | None => Some r end) request
      | NONE => dispatch rest partial request
      end
  end.

(** The exception handlers FastAPI installs innermost: an [HTTPException]
    becomes a JSON response with its status and detail, a validation error a
    422; anything else is raised on. *)
Definition exception_handlers (c : M Response) : M Response :=
  try_except c (λ e,
    match e with
    | HTTPException status_code detail =>
        mret (JSONResponse status_code (JObj [("detail", JStr detail)]))
    | RequestValidationError errors =>
        mret (JSONResponse 422 (JObj [("detail", JArr errors)]))
    | Exception _ => raise e
    end).

Definition router (request : Request) : M Response :=
  exception_handlers (dispatch routes None request).

(** Starlette's outermost layer: an exception that comes up to it is
    answered 500 in plain text (and handed on to the server, which logs
    it). *)
Definition server_error_middleware (c : M Response) : M Response :=
  try_except c (λ _, mret (PlainTextResponse 500 "Internal Server Error")).

(** ** The application

    [@app.middleware("http")] puts each new middleware outside those already
    registered, so [cors_middleware], registered last, wraps [auth_middleware],
    which wraps the router. *)
Definition app (request : Request) : M Response :=
  server_error_middleware
    (cors_middleware request (λ request,
       auth_middleware request router)).

(** ** Concrete data for examples *)

Definition vec3 : list float := [0.5%float; 0.25%float; 1%float].

(** A model with three dimensions that never fails. *)
Definition model3 : SentenceTransformer :=
  {| encode := λ _, inr vec3;
     encode_batch := λ texts, inr ((λ _, vec3) <$> texts);
     get_sentence_embedding_dimension := 3 |}.

(** A model whose [encode] always raises. *)
Definition broken_model : SentenceTransformer :=
  {| encode := λ _, inl (Exception "CUDA out of memory");
     encode_batch := λ _, inl (Exception "CUDA out of memory");
     get_sentence_embedding_dimension := 3 |}.

(** A model of 1024 dimensions whose vector tells an empty text from others. *)
Definition model1024 : SentenceTransformer :=
  {| encode := λ text,
       inr (replicate 1024 (if decide (text = "") then 0%float else 1%float));
     encode_batch := λ texts,
       inr ((λ text, replicate 1024 (if decide (text = "") then 0%float else 1%float))
            <$> texts);
     get_sentence_embedding_dimension := 1024 |}.

(** A model whose batch result is always empty. *)
Definition empty_model : SentenceTransformer :=
  {| encode := λ _, inr [];
     encode_batch := λ _, inr [];
     get_sentence_embedding_dimension := 0 |}.

Definition world (token : option string) (m : option SentenceTransformer) : World :=
  {| AUTH_TOKEN := token; model := m; trace := [] |}.

(** An ordinary request: [request.url.path] is the path it is routed by. *)
Definition request_ (method path : string) (auth : option string) (body : option json)
    : Request :=
  {| method := method; path := path; url_path := inr path;
     headers := match auth with
                | Some a => {[ "Authorization" := a ]}
                | None => ∅
                end;
     body := match body with
             | Some document => JSON document
             | None => NoBody
             end |}.

(** A POST to /embed whose [Host] header is [a/health?]: Starlette builds the
    URL [http://a/health?/embed], whose path is [/health]. *)
Definition host_health_request : Request :=
  {| method := "POST"; path := "/embed"; url_path := inr "/health";
     headers := {[ "Host" := "a/health?" ]};
     body := JSON (JObj [("text", JStr "hello")]) |}.

(** A GET of /model/info whose [Host] header is an opening bracket alone:
    [urlsplit] raises. *)
Definition bad_host_request : Request :=
  {| method := "GET"; path := "/model/info";
     url_path := inl (Exception "Invalid IPv6 URL");
     headers := {[ "Host" := "[" ]};
     body := NoBody |}.

(** The status of the response, if there is one. *)
Definition status_of (r : outcome Response * World) : option Z :=
  match r.1 with
  | Ok response => Some (status_code response)
  | Raised _ => None
  end.

(** ** What the gate does with a request

    The gate admits a request when it answers with whatever the rest of the
    chain answers; it rejects a request when it answers 401 whatever the rest
    of the chain is, leaving the world as it found it. *)

Definition admits (request : Request) (w : World) : Prop :=
  ∀ call_next, auth_middleware request call_next w = call_next request w.

Definition rejects (request : Request) (w : World) : Prop :=
  ∀ call_next,
    auth_middleware request call_next w
    = (Ok (JSONResponse 401 (JObj [("error", JStr "Unauthorized")])), w).

(** The three headers [cors_middleware] sets. *)
Definition with_cors (response : Response) : Response :=
  set_header "Access-Control-Allow-Headers" "Content-Type, Authorization"
    (set_header "Access-Control-Allow-Methods" "GET, POST, OPTIONS"
       (set_header "Access-Control-Allow-Origin" "*" response)).


(** ** Worlds that differ in their past only *)

(** The world [w] after the events [new]. *)
Definition extend (new : list event) (w : World) : World :=
  {| AUTH_TOKEN := AUTH_TOKEN w; model := model w; trace := trace w ++ new |}.

Definition same_globals (w1 w2 : World) : Prop :=
  AUTH_TOKEN w1 = AUTH_TOKEN w2 ∧ model w1 = model w2.

(** A computation that reads nothing of the world but the globals, and does
    nothing to it but add to the trace. *)
Definition reads_globals_only {A} (c : M A) : Prop :=
  ∀ w1 w2, same_globals w1 w2 →
    ∃ o new, c w1 = (o, extend new w1) ∧ c w2 = (o, extend new w2).

(** * Proofs *)

Ltac unfold_monad :=
  unfold lift, print in *;
  unfold mbind, M_bind, mret, M_ret, raise, gets, modify, try_except, call in *.

(** ** The monad *)

Lemma bind_ok {A B} (c : M A) (f : A → M B) w a w' :
  c w = (Ok a, w') → (c ≫= f) w = f a w'.
Proof. intros H. unfold_monad. by rewrite H. Qed.

Lemma bind_raised {A B} (c : M A) (f : A → M B) w e w' :
  c w = (Raised e, w') → (c ≫= f) w = (Raised e, w').
Proof. intros H. unfold_monad. by rewrite H. Qed.

Lemma truthy_false (o : option string) :
  truthy o = false ↔ o = None ∨ o = Some "".
Proof.
  destruct o as [s|]; simpl.
  - rewrite negb_false_iff, String.eqb_eq. split.
    + intros ->. by right.
    + intros [?|[= ->]]; done.
  - split; [by left|done].
Qed.

Lemma truthy_true (o : option string) :
  truthy o = true ↔ ∃ s, o = Some s ∧ s ≠ "".
Proof.
  destruct o as [s|]; simpl.
  - rewrite negb_true_iff, String.eqb_neq. split.
    + intros Hs. by exists s.
    + by intros (s' & [= ->] & Hs).
  - split; [done|]. by intros (s' & ? & _).
Qed.

(** ** The auth gate *)

Lemma auth_health (request : Request) (w : World) :
  url_path request = inr "/health" → admits request w.
Proof.
  intros Hp call_next. unfold auth_middleware. rewrite Hp. by unfold_monad.
Qed.

Lemma auth_open (request : Request) (w : World) (p : string) :
  url_path request = inr p →
  AUTH_TOKEN w = None ∨ AUTH_TOKEN w = Some "" → admits request w.
Proof.
  intros Hp Ht%truthy_false call_next. unfold auth_middleware. rewrite Hp.
  unfold_monad. case_decide; [done|]. by rewrite Ht.
Qed.

Lemma auth_match (request : Request) (w : World) (p secret : string) :
  url_path request = inr p →
  AUTH_TOKEN w = Some secret →
  headers request !! "Authorization" = Some ("Bearer " +:+ secret) →
  admits request w.
Proof.
  intros Hp Ht Hh call_next. unfold auth_middleware. rewrite Hp.
  unfold_monad. case_decide; [done|].
  destruct (truthy (AUTH_TOKEN w)); simpl; [|done].
  rewrite Ht, Hh. simpl.
  by rewrite bool_decide_false by (intros Hne; by apply Hne).
Qed.

Lemma auth_mismatch (request : Request) (w : World) (p secret : string) :
  url_path request = inr p → p ≠ "/health" →
  AUTH_TOKEN w = Some secret → secret ≠ "" →
  headers request !! "Authorization" ≠ Some ("Bearer " +:+ secret) →
  rejects request w.
Proof.
  intros Hu Hp Ht Hs Hh call_next. unfold auth_middleware. rewrite Hu.
  unfold_monad. rewrite decide_False by done.
  assert (truthy (AUTH_TOKEN w) = true) as ->
    by (apply truthy_true; eauto).
  simpl. rewrite Ht. simpl.
  rewrite (bool_decide_true (_ ≠ _)) by done.
  by rewrite orb_true_r.
Qed.

(** Evaluating [request.url.path] raises: so does the gate, before anything
    else. *)
Lemma auth_raises (request : Request) (w : World) (e : exn) call_next :
  url_path request = inl e →
  auth_middleware request call_next w = (Raised e, w).
Proof. intros Hu. unfold auth_middleware. rewrite Hu. by unfold_monad. Qed.

(** A request cannot be both admitted and rejected. *)
Lemma admits_rejects (request : Request) (w : World) :
  admits request w → rejects request w → False.
Proof.
  intros Ha Hr.
  specialize (Ha (λ _ w, (Raised (Exception ""), w))).
  specialize (Hr (λ _ w, (Raised (Exception ""), w))).
  rewrite Ha in Hr. discriminate.
Qed.

Lemma admits_readable (request : Request) (w : World) :
  admits request w → ∃ p, url_path request = inr p.
Proof.
  intros Ha. destruct (url_path request) as [e|p] eqn:Hu; [|by exists p].
  specialize (Ha (λ _ w, (Ok (JSONResponse 200 JNull), w))).
  by rewrite (auth_raises _ _ e _ Hu) in Ha.
Qed.

Lemma rejects_readable (request : Request) (w : World) :
  rejects request w → ∃ p, url_path request = inr p.
Proof.
  intros Hr. destruct (url_path request) as [e|p] eqn:Hu; [|by exists p].
  specialize (Hr (λ _ w, (Ok (JSONResponse 200 JNull), w))).
  by rewrite (auth_raises _ _ e _ Hu) in Hr.
Qed.

(** C1, on the code.  The gate tells the health check by [request.url.path],
    which Starlette builds again from the [Host] header, and the router by the
    path of the scope.  A POST to /embed whose [Host] header is [a/health?]
    has [/health] as its [request.url.path]: with the secret ["S"] configured
    and no credential at all it is let through, [embed] runs and the model is
    called. *)
Theorem gate_skipped_off_health :
  headers host_health_request !! "Authorization" = None ∧
  path host_health_request = "/embed" ∧
  app host_health_request (world (Some "S") (Some model3))
  = (Ok (with_cors (JSONResponse 200
           (EmbedResponse.dump
              {| EmbedResponse.embedding := vec3;
                 EmbedResponse.dimensions := 3;
                 EmbedResponse.model := MODEL_NAME |}))),
     {| AUTH_TOKEN := Some "S"; model := Some model3;
        trace := [Encode "hello";
                  Stdout "[Embedding Service] ✅ Generated 3-dimensional embedding"] |}).
Proof. split; [reflexivity|]. split; [reflexivity|]. vm_compute. reflexivity. Qed.

(** With [request.url.path] for the request path, the gate decides as
    follows: on [/health] the request is admitted whatever the credential and
    the configuration; elsewhere it is admitted when no secret token is
    configured (the variable is unset or empty); with a secret configured it
    is admitted exactly when the [Authorization] header equals ["Bearer "]
    followed by the secret, and every other request (no header, another
    value) is answered with the 401 [{"error": "Unauthorized"}] response
    without the rest of the chain being run: the answer and the world do not
    depend on it. *)
Theorem gate_decision_by_url_path (request : Request) (w : World) (p : string) :
  url_path request = inr p →
  (p = "/health" → admits request w) ∧
  (p ≠ "/health" →
   AUTH_TOKEN w = None ∨ AUTH_TOKEN w = Some "" → admits request w) ∧
  (∀ secret,
     p ≠ "/health" → AUTH_TOKEN w = Some secret → secret ≠ "" →
     (admits request w
      ↔ headers request !! "Authorization" = Some ("Bearer " +:+ secret)) ∧
     (headers request !! "Authorization" ≠ Some ("Bearer " +:+ secret) →
      rejects request w)).
Proof.
  intros Hu. split; [intros ->; by apply auth_health|].
  split; [intros _; by apply (auth_open _ _ p)|].
  intros secret Hp Ht Hs. split; [split|].
  - intros Ha.
    destruct (decide (headers request !! "Authorization" = Some ("Bearer " +:+ secret)))
      as [|Hne]; [done|].
    destruct (admits_rejects request w Ha). by eapply auth_mismatch.
  - by apply (auth_match _ _ p).
  - by apply (auth_mismatch _ _ p).
Qed.

Lemma gate_decision_by_url_path_witness :
  rejects (request_ "POST" "/embed" (Some "Bearer wrong") None) (world (Some "S") None).
Proof.
  destruct (gate_decision_by_url_path
              (request_ "POST" "/embed" (Some "Bearer wrong") None)
              (world (Some "S") None) "/embed" eq_refl) as (_ & _ & Hsecret).
  apply (Hsecret "S"); [discriminate|reflexivity|discriminate|].
  vm_compute. discriminate.
Defined.
(** ** Routing *)

Lemma dispatch_health (request : Request) :
  method request = "GET" → path request = "/health" →
  dispatch routes None request = run_endpoint ep_health request.
Proof. intros Hm Hp. unfold routes, dispatch, matches. by rewrite Hm, Hp. Qed.

Lemma dispatch_embed (request : Request) :
  method request = "POST" → path request = "/embed" →
  dispatch routes None request = run_endpoint ep_embed request.
Proof. intros Hm Hp. unfold routes, dispatch, matches. by rewrite Hm, Hp. Qed.

Lemma dispatch_embed_batch (request : Request) :
  method request = "POST" → path request = "/embed/batch" →
  dispatch routes None request = run_endpoint ep_embed_batch request.
Proof. intros Hm Hp. unfold routes, dispatch, matches. by rewrite Hm, Hp. Qed.


(** An OPTIONS request matches no route before the catch-all one in full,
    whatever its path. *)
Lemma dispatch_options (request : Request) :
  method request = "OPTIONS" →
  path_matches (PathParam "/") (path request) = true →
  dispatch routes None request = options_handler.
Proof.
  intros Hm Hp. unfold routes.
  cbn [dispatch route_endpoint]. unfold matches.
  cbn [route_path route_methods].
  rewrite Hm, Hp.
  change (bool_decide ("OPTIONS" ∈ ["GET"])) with false.
  change (bool_decide ("OPTIONS" ∈ ["POST"])) with false.
  change (bool_decide ("OPTIONS" ∈ ["OPTIONS"])) with true.
  by repeat destruct (path_matches (Literal _) _).
Qed.

(** ** Endpoints never raise anything but HTTP errors *)









Lemma app_admitted (request : Request) (w : World) response w' :
  admits request w → router request w = (Ok response, w') →
  app request w = (Ok (with_cors response), w').
Proof.
  intros Ha Hr. unfold app, server_error_middleware, try_except, cors_middleware.
  erewrite bind_ok by (rewrite Ha; exact Hr). done.
Qed.

Lemma app_rejected (request : Request) (w : World) :
  rejects request w →
  app request w
  = (Ok (with_cors (JSONResponse 401 (JObj [("error", JStr "Unauthorized")]))), w).
Proof.
  intros Hr. unfold app, server_error_middleware, try_except, cors_middleware.
  erewrite bind_ok by apply Hr. done.
Qed.

(** An exception of the gate passes [cors_middleware] and is answered by the
    outermost layer. *)
Lemma app_raised (request : Request) (w : World) (e : exn) :
  url_path request = inl e →
  app request w = (Ok (PlainTextResponse 500 "Internal Server Error"), w).
Proof.
  intros Hu. unfold app, server_error_middleware, try_except, cors_middleware.
  erewrite bind_raised by (by apply auth_raises). done.
Qed.

Lemma with_cors_headers (response : Response) :
  get_header "Access-Control-Allow-Origin" (with_cors response) = Some "*" ∧
  get_header "Access-Control-Allow-Methods" (with_cors response)
  = Some "GET, POST, OPTIONS" ∧
  get_header "Access-Control-Allow-Headers" (with_cors response)
  = Some "Content-Type, Authorization".
Proof.
  unfold get_header, with_cors, set_header; simpl.
  change (lower "Access-Control-Allow-Origin") with "access-control-allow-origin".
  change (lower "Access-Control-Allow-Methods") with "access-control-allow-methods".
  change (lower "Access-Control-Allow-Headers") with "access-control-allow-headers".
  repeat split.
  - rewrite !lookup_insert_ne by done. apply lookup_insert_eq.
  - rewrite lookup_insert_ne by done. apply lookup_insert_eq.
  - apply lookup_insert_eq.
Qed.

(** ** The endpoints, case by case *)

Lemma embed_not_loaded (req : EmbedRequest.t) (w : World) :
  model w = None →
  embed req w = (Raised (HTTPException 503 "Model not loaded"), w).
Proof. intros Hm. unfold embed. unfold_monad. by rewrite Hm. Qed.

Lemma embed_batch_not_loaded (req : EmbedBatchRequest.t) (w : World) :
  model w = None →
  embed_batch req w = (Raised (HTTPException 503 "Model not loaded"), w).
Proof. intros Hm. unfold embed_batch. unfold_monad. by rewrite Hm. Qed.

Lemma embed_encoded (req : EmbedRequest.t) (w : World) m v :
  model w = Some m → encode m (EmbedRequest.text req) = inr v →
  embed req w
  = (Ok {| EmbedResponse.embedding := v;
           EmbedResponse.dimensions := Z.of_nat (length v);
           EmbedResponse.model := MODEL_NAME |},
     emit (Stdout ("[Embedding Service] ✅ Generated "
                  +:+ pretty (length v) +:+ "-dimensional embedding"))
       (emit (Encode (EmbedRequest.text req)) w)).
Proof. intros Hm He. unfold embed. unfold_monad. by rewrite Hm, He. Qed.

Lemma embed_failed (req : EmbedRequest.t) (w : World) m e :
  model w = Some m → encode m (EmbedRequest.text req) = inl e →
  embed req w
  = (Raised (HTTPException 500 ("Failed to generate embedding: " +:+ str e)),
     emit (Stdout ("[Embedding Service] ❌ Error generating embedding: " +:+ str e))
       (emit (Encode (EmbedRequest.text req)) w)).
Proof. intros Hm He. unfold embed. unfold_monad. by rewrite Hm, He. Qed.

Lemma embed_batch_encoded (req : EmbedBatchRequest.t) (w : World) m vectors :
  model w = Some m → encode_batch m (EmbedBatchRequest.texts req) = inr vectors →
  embed_batch req w
  = (Ok {| EmbedBatchResponse.embeddings := vectors;
           EmbedBatchResponse.dimensions :=
             match vectors with
             | [] => 0
             | first :: _ => Z.of_nat (length first)
             end;
           EmbedBatchResponse.model := MODEL_NAME |},
     emit (Stdout ("[Embedding Service] ✅ Generated "
                  +:+ pretty (length vectors) +:+ " embeddings"))
       (emit (EncodeBatch (EmbedBatchRequest.texts req)) w)).
Proof.
  intros Hm He. unfold embed_batch, item0. unfold_monad. rewrite Hm, He.
  by destruct vectors.
Qed.

Lemma embed_batch_failed (req : EmbedBatchRequest.t) (w : World) m e :
  model w = Some m → encode_batch m (EmbedBatchRequest.texts req) = inl e →
  embed_batch req w
  = (Raised (HTTPException 500 ("Failed to generate embeddings: " +:+ str e)),
     emit (Stdout ("[Embedding Service] ❌ Error generating batch embeddings: "
                  +:+ str e))
       (emit (EncodeBatch (EmbedBatchRequest.texts req)) w)).
Proof. intros Hm He. unfold embed_batch. unfold_monad. by rewrite Hm, He. Qed.

(** ** The router on each route *)

Lemma router_health (request : Request) (w : World) :
  method request = "GET" → path request = "/health" →
  router request w
  = (Ok (JSONResponse 200
           (JObj [("status", JStr "healthy");
                  ("service", JStr "embedding-service");
                  ("model", JStr MODEL_NAME);
                  ("dimensions", JInt 1024)])), w).
Proof. intros Hm Hp. unfold router. by rewrite dispatch_health. Qed.


Lemma router_options (request : Request) (w : World) :
  method request = "OPTIONS" →
  path_matches (PathParam "/") (path request) = true →
  router request w = (Ok (JSONResponse 204 (JObj [])), w).
Proof. intros Hm Hp. unfold router. by rewrite dispatch_options. Qed.

Lemma router_embed_invalid (request : Request) (w : World) errors :
  method request = "POST" → path request = "/embed" →
  EmbedRequest.validate (body request) = inl (RequestValidationError errors) →
  router request w = (Ok (JSONResponse 422 (JObj [("detail", JArr errors)])), w).
Proof.
  intros Hm Hp Hv. unfold router. rewrite dispatch_embed by done.
  unfold run_endpoint. by rewrite Hv.
Qed.

Lemma router_embed_batch_invalid (request : Request) (w : World) errors :
  method request = "POST" → path request = "/embed/batch" →
  EmbedBatchRequest.validate (body request) = inl (RequestValidationError errors) →
  router request w = (Ok (JSONResponse 422 (JObj [("detail", JArr errors)])), w).
Proof.
  intros Hm Hp Hv. unfold router. rewrite dispatch_embed_batch by done.
  unfold run_endpoint. by rewrite Hv.
Qed.

Lemma router_embed_raised (request : Request) (w : World) req status detail w' :
  method request = "POST" → path request = "/embed" →
  EmbedRequest.validate (body request) = inr req →
  embed req w = (Raised (HTTPException status detail), w') →
  router request w = (Ok (JSONResponse status (JObj [("detail", JStr detail)])), w').
Proof.
  intros Hm Hp Hv He. unfold router. rewrite dispatch_embed by done.
  unfold run_endpoint. rewrite Hv. unfold exception_handlers, try_except.
  by erewrite bind_raised by exact He.
Qed.

Lemma router_embed_ok (request : Request) (w : World) req r w' :
  method request = "POST" → path request = "/embed" →
  EmbedRequest.validate (body request) = inr req →
  embed req w = (Ok r, w') →
  router request w = (Ok (JSONResponse 200 (EmbedResponse.dump r)), w').
Proof.
  intros Hm Hp Hv He. unfold router. rewrite dispatch_embed by done.
  unfold run_endpoint. rewrite Hv. unfold exception_handlers, try_except.
  by erewrite bind_ok by exact He.
Qed.

Lemma router_embed_batch_raised (request : Request) (w : World) req status detail w' :
  method request = "POST" → path request = "/embed/batch" →
  EmbedBatchRequest.validate (body request) = inr req →
  embed_batch req w = (Raised (HTTPException status detail), w') →
  router request w = (Ok (JSONResponse status (JObj [("detail", JStr detail)])), w').
Proof.
  intros Hm Hp Hv He. unfold router. rewrite dispatch_embed_batch by done.
  unfold run_endpoint. rewrite Hv. unfold exception_handlers, try_except.
  by erewrite bind_raised by exact He.
Qed.

Lemma router_embed_batch_ok (request : Request) (w : World) req r w' :
  method request = "POST" → path request = "/embed/batch" →
  EmbedBatchRequest.validate (body request) = inr req →
  embed_batch req w = (Ok r, w') →
  router request w = (Ok (JSONResponse 200 (EmbedBatchResponse.dump r)), w').
Proof.
  intros Hm Hp Hv He. unfold router. rewrite dispatch_embed_batch by done.
  unfold run_endpoint. rewrite Hv. unfold exception_handlers, try_except.
  by erewrite bind_ok by exact He.
Qed.

(** ** Startup *)

Lemma lifespan_failed {A} (load : string → exn + SentenceTransformer)
    (serving : M A) (w : World) e :
  load MODEL_NAME = inl e →
  ∃ w', lifespan load serving w = (Raised e, w') ∧ model w' = model w.
Proof.
  intros Hl. unfold lifespan. unfold_monad. rewrite Hl. simpl. eauto.
Qed.

(** After a load that succeeded the application serves with the model set. *)
Lemma lifespan_loaded {A} (load : string → exn + SentenceTransformer)
    (serving : M A) (w : World) m :
  load MODEL_NAME = inr m →
  ∃ w1, model w1 = Some m ∧
        lifespan load serving w
        = ((serving ≫= λ served,
            print "[Embedding Service] 👋 Shutting down embedding service...";;
            mret served) w1).
Proof.
  intros Hl. unfold lifespan. unfold_monad. rewrite Hl. simpl.
  refine (ex_intro _ _ (conj _ eq_refl)). reflexivity.
Qed.

(** ** Readiness *)


(** ** Validation *)

Lemma validate_batch_nonempty (body : Body) (req : EmbedBatchRequest.t) :
  EmbedBatchRequest.validate body = inr req →
  (1 ≤ length (EmbedBatchRequest.texts req))%nat.
Proof.
  unfold EmbedBatchRequest.validate. intros H.
  destruct (read_body body) as [e|[| | | | | |fields]]; try done.
  destruct (dict_get "texts" fields) as [[| | | | |items|]|]; try done.
  destruct (EmbedBatchRequest.strings items) as [l|]; [|done].
  case_decide; [|done]. by injection H as <-.
Qed.

Lemma validate_text_nonempty (body : Body) (req : EmbedRequest.t) :
  EmbedRequest.validate body = inr req →
  (1 ≤ String.length (EmbedRequest.text req))%nat.
Proof.
  unfold EmbedRequest.validate. intros H.
  destruct (read_body body) as [e|[| | | | | |fields]]; try done.
  destruct (dict_get "text" fields) as [[| | | |s| |]|]; try done.
  case_decide; [|done]. by injection H as <-.
Qed.

Lemma strings_of_strings (l : list string) :
  EmbedBatchRequest.strings (JStr <$> l) = Some l.
Proof. induction l as [|s l IH]; csimpl; [done|]. by rewrite IH. Qed.

(** ** Batch embedding *)

(** C3. A batch request that reaches [embed_batch] with the model loaded and
    its [encode] succeeding is answered 200 with the vectors the model
    returned for the request's texts, unchanged and in the same order.  So
    when the model returns one vector per text, the i-th belonging to the
    i-th text (for whatever relation [R] "belongs" is), each of the model's
    dimensionality, and this is the dimensionality [model_info] reports, the
    response holds exactly as many vectors as there are texts, vector i
    belongs to text i and has the reported length, and the response's own
    [dimensions] is that number. *)
Theorem embed_batch_positional (request : Request) (w : World)
    (m : SentenceTransformer) (req : EmbedBatchRequest.t)
    (vectors : list (list float)) (R : string → list float → Prop)
    (info : ModelInfoResponse.t) :
  model w = Some m →
  admits request w →
  method request = "POST" → path request = "/embed/batch" →
  EmbedBatchRequest.validate (body request) = inr req →
  encode_batch m (EmbedBatchRequest.texts req) = inr vectors →
  Forall2 R (EmbedBatchRequest.texts req) vectors →
  Forall (λ v, length v = get_sentence_embedding_dimension m) vectors →
  model_info w = (Ok info, w) →
  Z.of_nat (get_sentence_embedding_dimension m) = ModelInfoResponse.dimensions info →
  ∃ r w',
    app request w
    = (Ok (with_cors (JSONResponse 200 (EmbedBatchResponse.dump r))), w') ∧
    length (EmbedBatchResponse.embeddings r) = length (EmbedBatchRequest.texts req) ∧
    (∀ (i : nat) text,
       EmbedBatchRequest.texts req !! i = Some text →
       ∃ v, EmbedBatchResponse.embeddings r !! i = Some v ∧ R text v ∧
            Z.of_nat (length v) = ModelInfoResponse.dimensions info) ∧
    EmbedBatchResponse.dimensions r = ModelInfoResponse.dimensions info.
Proof.
  intros Hm Ha Hmeth Hp Hv He HR Hlen _ Hdim.
  eexists _, _. split; [|split; [|split]].
  - apply app_admitted; [done|].
    eapply router_embed_batch_ok; [done..|].
    by eapply embed_batch_encoded.
  - simpl. symmetry. by eapply Forall2_length.
  - simpl. intros i text Hi.
    destruct (Forall2_lookup_l _ _ _ _ _ HR Hi) as (v & Hvi & HRv).
    exists v. split; [done|]. split; [done|].
    rewrite <- Hdim. f_equal.
    by apply (Forall_lookup_1 _ _ _ _ Hlen Hvi).
  - simpl. pose proof (validate_batch_nonempty _ _ Hv) as Hne.
    destruct HR as [|text v texts vs HRv HRs]; simpl in Hne; [lia|].
    rewrite <- Hdim. f_equal. by inversion Hlen.
Qed.

Lemma embed_batch_positional_witness :
  ∃ r w',
    app (request_ "POST" "/embed/batch" None
           (Some (JObj [("texts", JArr [JStr "a"; JStr ""; JStr "c"])])))
      (world None (Some model1024))
    = (Ok (with_cors (JSONResponse 200 (EmbedBatchResponse.dump r))), w') ∧
    length (EmbedBatchResponse.embeddings r) = 3%nat ∧
    (∀ (i : nat) text,
       ["a"; ""; "c"] !! i = Some text →
       ∃ v, EmbedBatchResponse.embeddings r !! i = Some v ∧
            encode model1024 text = inr v ∧
            Z.of_nat (length v) = 1024) ∧
    EmbedBatchResponse.dimensions r = 1024.
Proof.
  apply (embed_batch_positional
           (request_ "POST" "/embed/batch" None
              (Some (JObj [("texts", JArr [JStr "a"; JStr ""; JStr "c"])])))
           (world None (Some model1024)) model1024
           {| EmbedBatchRequest.texts := ["a"; ""; "c"] |}
           ((λ text, replicate 1024 (if decide (text = "") then 0%float else 1%float))
            <$> ["a"; ""; "c"])
           (λ text v, encode model1024 text = inr v)
           {| ModelInfoResponse.name := MODEL_NAME;
              ModelInfoResponse.dimensions := 1024;
              ModelInfoResponse.loaded := true;
              ModelInfoResponse.languages := "100+" |}).
  - reflexivity.
  - apply (auth_open _ _ "/embed/batch"); [reflexivity|by left].
  - reflexivity.
  - reflexivity.
  - reflexivity.
  - reflexivity.
  - repeat constructor.
  - repeat constructor.
  - reflexivity.
  - reflexivity.
Defined.

(** ** Preflight *)

(** The gate passes the request on, answers 401, or raises what evaluating
    [request.url.path] raised. *)
Lemma gate_decides (request : Request) (w : World) :
  admits request w ∨ rejects request w ∨ ∃ e, url_path request = inl e.
Proof.
  destruct (url_path request) as [e|p] eqn:Hu; [right; right; by exists e|].
  destruct (decide (p = "/health")) as [->|Hp];
    [left; by apply auth_health|].
  destruct (truthy (AUTH_TOKEN w)) eqn:Ht.
  - apply truthy_true in Ht as (secret & Ht & Hs).
    destruct (decide (headers request !! "Authorization" = Some ("Bearer " +:+ secret)));
      [left; by eapply auth_match | right; left; by eapply auth_mismatch].
  - left. apply (auth_open _ _ p); [done|]. by apply truthy_false.
Qed.

Lemma no_newline_rest_of_line (s : string) :
  no_newline s = true → rest_of_line s = true.
Proof.
  induction s as [|c s IH]; simpl; [done|].
  case_decide; [done|]. exact IH.
Qed.

Lemma slash_path_matches (rest : string) :
  no_newline rest = true → path_matches (PathParam "/") ("/" +:+ rest) = true.
Proof. intros H. simpl. by apply no_newline_rest_of_line. Qed.

(** C4, on the code.  The auth gate does not look at the method: an OPTIONS
    request is held to the same rule as any other.  With a secret configured,
    a preflight to /embed, which carries no credential, is answered 401 and
    [options_handler] is not reached. *)
Lemma options_without_credential_rejected :
  app (request_ "OPTIONS" "/embed" None None) (world (Some "S") (Some model3))
  = (Ok (with_cors (JSONResponse 401 (JObj [("error", JStr "Unauthorized")]))),
     world (Some "S") (Some model3))
  ∧ status_code (with_cors (JSONResponse 401 (JObj [("error", JStr "Unauthorized")])))
    ≠ 204.
Proof.
  split; [|done].
  apply app_rejected. by apply (auth_mismatch _ _ "/embed" "S").
Qed.

(** An OPTIONS request that the auth gate lets through, to a path that is a
    slash followed by anything without a newline, is answered 204 with the
    empty JSON object as its content, and the world is left untouched. *)
Theorem options_no_content (request : Request) (w : World) (rest : string) :
  method request = "OPTIONS" →
  path request = "/" +:+ rest → no_newline rest = true →
  admits request w →
  app request w = (Ok (with_cors (JSONResponse 204 (JObj []))), w).
Proof.
  intros Hm Hp Hn Ha. apply app_admitted; [done|].
  apply router_options; [done|]. rewrite Hp. by apply slash_path_matches.
Qed.

Lemma options_no_content_witness :
  app (request_ "OPTIONS" "/embed" (Some "Bearer S") None) (world (Some "S") None)
  = (Ok (with_cors (JSONResponse 204 (JObj []))), world (Some "S") None).
Proof.
  apply (options_no_content (request_ "OPTIONS" "/embed" (Some "Bearer S") None)
           (world (Some "S") None) "embed" eq_refl eq_refl eq_refl).
  by apply (auth_match _ _ "/embed" "S").
Defined.

(** ** Input validation *)

(** C5, as the code has it.  [min_length=1] counts characters and strips
    nothing: a text of one space passes validation and is encoded. *)
Lemma whitespace_text_accepted :
  EmbedRequest.validate (JSON (JObj [("text", JStr " ")]))
  = inr {| EmbedRequest.text := " " |}
  ∧ ∃ r,
      app (request_ "POST" "/embed" None (Some (JObj [("text", JStr " ")])))
        (world None (Some model3))
      = (Ok (with_cors (JSONResponse 200 (EmbedResponse.dump r))),
         {| AUTH_TOKEN := None; model := Some model3;
            trace := [Encode " ";
                      Stdout "[Embedding Service] ✅ Generated 3-dimensional embedding"] |}).
Proof.
  split; [reflexivity|].
  exists {| EmbedResponse.embedding := vec3;
            EmbedResponse.dimensions := 3;
            EmbedResponse.model := MODEL_NAME |}.
  vm_compute. reflexivity.
Qed.

(** C5, amended.  [embed] rejects the empty text and [embed_batch] the empty
    sequence as a client error, 422, before the endpoint runs: for a request
    the auth gate admits the answer is the 422 and the world is untouched
    (nothing is printed, the model is not called), whether or not the model
    is loaded.  Any text of at least one character, a text of white space
    only included, passes the validation of [embed]. *)
Theorem empty_input_rejected (request : Request) (w : World)
    (fields : list (string * json)) :
  admits request w → method request = "POST" →
  body request = JSON (JObj fields) →
  (path request = "/embed" → dict_get "text" fields = Some (JStr "") →
   ∃ errors,
     app request w
     = (Ok (with_cors (JSONResponse 422 (JObj [("detail", JArr errors)]))), w)) ∧
  (path request = "/embed/batch" → dict_get "texts" fields = Some (JArr []) →
   ∃ errors,
     app request w
     = (Ok (with_cors (JSONResponse 422 (JObj [("detail", JArr errors)]))), w)) ∧
  (∀ s, dict_get "text" fields = Some (JStr s) → s ≠ "" →
        EmbedRequest.validate (body request) = inr {| EmbedRequest.text := s |}).
Proof.
  intros Ha Hm Hb. split; [|split].
  - intros Hp Ht. eexists. apply app_admitted; [done|].
    apply router_embed_invalid; [done..|].
    unfold EmbedRequest.validate. rewrite Hb. cbn [read_body]. by rewrite Ht.
  - intros Hp Ht. eexists. apply app_admitted; [done|].
    apply router_embed_batch_invalid; [done..|].
    unfold EmbedBatchRequest.validate. rewrite Hb. cbn [read_body]. by rewrite Ht.
  - intros s Ht Hs. unfold EmbedRequest.validate. rewrite Hb. cbn [read_body].
    rewrite Ht.
    rewrite decide_True; [done|]. destruct s; [done|simpl; lia].
Qed.

Lemma empty_input_rejected_witness :
  ∃ errors,
    app (request_ "POST" "/embed" (Some "Bearer S") (Some (JObj [("text", JStr "")])))
      (world (Some "S") (Some model3))
    = (Ok (with_cors (JSONResponse 422 (JObj [("detail", JArr errors)]))),
       world (Some "S") (Some model3)).
Proof.
  apply (proj1 (empty_input_rejected
                  (request_ "POST" "/embed" (Some "Bearer S")
                     (Some (JObj [("text", JStr "")])))
                  (world (Some "S") (Some model3)) [("text", JStr "")]
                  (auth_match
                     (request_ "POST" "/embed" (Some "Bearer S")
                        (Some (JObj [("text", JStr "")])))
                     (world (Some "S") (Some model3)) "/embed" "S"
                     eq_refl eq_refl eq_refl)
                  eq_refl eq_refl));
    reflexivity.
Defined.

(** ** Health *)

(** C6, as the code has it.  [health] does not read [model]: with no model
    loaded it reports the same "healthy" as with one. *)
Lemma health_ignores_model :
  ∃ r,
    health (world None None) = (Ok r, world None None) ∧
    health (world None (Some model3)) = (Ok r, world None (Some model3)) ∧
    HealthResponse.status r = "healthy".
Proof. by eexists. Qed.

(** C6, amended.  A GET of /health whose [request.url.path] is /health too
    is answered 200 with the body [{status, service, model, dimensions}] in
    every world, whatever the auth configuration, the credential and the
    state of the model, and the world is left untouched; the reported status
    is the constant "healthy", the dimensions the constant 1024. *)
Theorem health_always_healthy (request : Request) (w : World) :
  method request = "GET" → path request = "/health" →
  url_path request = inr "/health" →
  app request w
  = (Ok (with_cors (JSONResponse 200
           (HealthResponse.dump
              {| HealthResponse.status := "healthy";
                 HealthResponse.service := "embedding-service";
                 HealthResponse.model := MODEL_NAME;
                 HealthResponse.dimensions := 1024 |}))), w).
Proof.
  intros Hm Hp Hu. apply app_admitted; [by apply auth_health|].
  by apply router_health.
Qed.

Lemma health_always_healthy_witness :
  app (request_ "GET" "/health" None None) (world (Some "S") None)
  = (Ok (with_cors (JSONResponse 200
           (JObj [("status", JStr "healthy");
                  ("service", JStr "embedding-service");
                  ("model", JStr "intfloat/multilingual-e5-large");
                  ("dimensions", JInt 1024)]))), world (Some "S") None).
Proof.
  apply (health_always_healthy (request_ "GET" "/health" None None)
           (world (Some "S") None)); reflexivity.
Defined.

(** ** Encoding failures *)

(** C7. With the model loaded, whatever [encode] raises on a request to
    /embed or /embed/batch is caught in the endpoint: the request is answered
    500, the detail being "Failed to generate embedding(s): " followed by the
    error's message, and no exception leaves the application. *)
Theorem encode_error_is_500 (request : Request) (w : World)
    (m : SentenceTransformer) (e : exn) :
  model w = Some m → admits request w → method request = "POST" →
  (∀ req,
     path request = "/embed" → EmbedRequest.validate (body request) = inr req →
     encode m (EmbedRequest.text req) = inl e →
     ∃ w',
       app request w
       = (Ok (with_cors (JSONResponse 500
                (JObj [("detail", JStr ("Failed to generate embedding: " +:+ str e))]))),
          w')) ∧
  (∀ req,
     path request = "/embed/batch" →
     EmbedBatchRequest.validate (body request) = inr req →
     encode_batch m (EmbedBatchRequest.texts req) = inl e →
     ∃ w',
       app request w
       = (Ok (with_cors (JSONResponse 500
                (JObj [("detail", JStr ("Failed to generate embeddings: " +:+ str e))]))),
          w')).
Proof.
  intros Hmodel Ha Hm. split.
  - intros req Hp Hv He. eexists. apply app_admitted; [done|].
    eapply router_embed_raised; [done..|]. by eapply embed_failed.
  - intros req Hp Hv He. eexists. apply app_admitted; [done|].
    eapply router_embed_batch_raised; [done..|]. by eapply embed_batch_failed.
Qed.

Lemma encode_error_is_500_witness :
  ∃ w',
    app (request_ "POST" "/embed" None (Some (JObj [("text", JStr "hello")])))
      (world None (Some broken_model))
    = (Ok (with_cors (JSONResponse 500
             (JObj [("detail",
                     JStr "Failed to generate embedding: CUDA out of memory")]))),
       w').
Proof.
  apply (proj1 (encode_error_is_500
                  (request_ "POST" "/embed" None (Some (JObj [("text", JStr "hello")])))
                  (world None (Some broken_model)) broken_model
                  (Exception "CUDA out of memory")
                  eq_refl
                  (auth_open
                     (request_ "POST" "/embed" None (Some (JObj [("text", JStr "hello")])))
                     (world None (Some broken_model)) "/embed" eq_refl
                     (or_introl eq_refl))
                  eq_refl)
               {| EmbedRequest.text := "hello" |}); reflexivity.
Defined.

(** ** Cross-origin headers *)

(** C8, on the code.  [cors_middleware] sets its headers on the response
    [call_next] returns.  When evaluating [request.url.path] raises in the
    gate (a [Host] header that is an opening bracket alone), [call_next]
    raises, no header is set, and the 500 the outermost layer sends carries
    none of the three. *)
Theorem cors_headers_missing_on_error :
  ∃ response,
    app bad_host_request (world None None) = (Ok response, world None None) ∧
    status_code response = 500 ∧
    content response = JStr "Internal Server Error" ∧
    get_header "Access-Control-Allow-Origin" response = None ∧
    get_header "Access-Control-Allow-Methods" response = None ∧
    get_header "Access-Control-Allow-Headers" response = None.
Proof.
  exists (PlainTextResponse 500 "Internal Server Error").
  split; [by apply (app_raised _ _ (Exception "Invalid IPv6 URL"))|].
  repeat split.
Qed.



(** ** Reported dimensionality of a batch *)

(** C9. When the model's batch result is the empty sequence, [embed_batch]
    returns normally and reports 0 dimensions: the index-0 access is behind
    the test of the list and is not run.  Otherwise it reports the length of
    the first vector. *)
Theorem batch_dimensions (req : EmbedBatchRequest.t) (w : World)
    (m : SentenceTransformer) (vectors : list (list float)) :
  model w = Some m →
  encode_batch m (EmbedBatchRequest.texts req) = inr vectors →
  ∃ r w',
    embed_batch req w = (Ok r, w') ∧
    EmbedBatchResponse.embeddings r = vectors ∧
    (vectors = [] → EmbedBatchResponse.dimensions r = 0) ∧
    (∀ first rest,
       vectors = first :: rest →
       EmbedBatchResponse.dimensions r = Z.of_nat (length first)).
Proof.
  intros Hm He. eexists _, _.
  split; [by eapply embed_batch_encoded|]. simpl.
  split; [done|]. split.
  - by intros ->.
  - by intros first rest ->.
Qed.

Lemma batch_dimensions_witness :
  ∃ r w',
    embed_batch {| EmbedBatchRequest.texts := ["a"] |} (world None (Some empty_model))
    = (Ok r, w') ∧
    EmbedBatchResponse.embeddings r = [] ∧
    EmbedBatchResponse.dimensions r = 0.
Proof.
  destruct (batch_dimensions {| EmbedBatchRequest.texts := ["a"] |}
              (world None (Some empty_model)) empty_model [] eq_refl eq_refl)
    as (r & w' & Hrun & Hvs & Hzero & _).
  exists r, w'. repeat split; [exact Hrun|exact Hvs|exact (Hzero eq_refl)].
Defined.

(** ** Items of a batch *)

(** C10. The validation of a batch looks at the length of the sequence only:
    any non-empty sequence of strings passes, empty strings among them, and
    the whole sequence is handed to the model's [encode] in one call, while
    [embed] turns the empty string down. *)
Theorem batch_items_not_validated (request : Request) (w : World)
    (m : SentenceTransformer) (texts : list string) :
  model w = Some m → admits request w →
  method request = "POST" → path request = "/embed/batch" →
  body request = JSON (JObj [("texts", JArr (JStr <$> texts))]) →
  texts ≠ [] →
  EmbedBatchRequest.validate (body request)
  = inr {| EmbedBatchRequest.texts := texts |} ∧
  (∃ response w' line,
     app request w = (Ok response, w') ∧
     trace w' = (trace w ++ [EncodeBatch texts; Stdout line])%list) ∧
  (∃ errors,
     EmbedRequest.validate (JSON (JObj [("text", JStr "")]))
     = inl (RequestValidationError errors)).
Proof.
  intros Hmodel Ha Hm Hp Hb Hne.
  assert (EmbedBatchRequest.validate (body request)
          = inr {| EmbedBatchRequest.texts := texts |}) as Hv.
  { rewrite Hb. unfold EmbedBatchRequest.validate. cbn [read_body].
    cbn [dict_get]. rewrite decide_True by done.
    rewrite strings_of_strings.
    rewrite decide_True; [done|]. destruct texts; [done|simpl; lia]. }
  split; [done|]. split; [|by eexists].
  destruct (encode_batch m texts) as [e|vectors] eqn:He.
  - eexists _, _, _. split.
    + apply app_admitted; [done|].
      eapply router_embed_batch_raised; [done..|].
      by eapply embed_batch_failed.
    + simpl. by rewrite <- (assoc_L (++)).
  - eexists _, _, _. split.
    + apply app_admitted; [done|].
      eapply router_embed_batch_ok; [done..|].
      by eapply embed_batch_encoded.
    + simpl. by rewrite <- (assoc_L (++)).
Qed.

Lemma batch_items_not_validated_witness :
  EmbedBatchRequest.validate (JSON (JObj [("texts", JArr [JStr ""])]))
  = inr {| EmbedBatchRequest.texts := [""] |} ∧
  (∃ response w' line,
     app (request_ "POST" "/embed/batch" None (Some (JObj [("texts", JArr [JStr ""])])))
       (world None (Some model3))
     = (Ok response, w') ∧
     trace w' = [EncodeBatch [""]; Stdout line]) ∧
  (∃ errors,
     EmbedRequest.validate (JSON (JObj [("text", JStr "")]))
     = inl (RequestValidationError errors)).
Proof.
  apply (batch_items_not_validated
           (request_ "POST" "/embed/batch" None (Some (JObj [("texts", JArr [JStr ""])])))
           (world None (Some model3)) model3 [""]).
  - reflexivity.
  - apply (auth_open _ _ "/embed/batch"); [reflexivity|by left].
  - reflexivity.
  - reflexivity.
  - reflexivity.
  - discriminate.
Defined.

(** ** Scenarios *)

(** With the secret ["S"] configured: [Bearer S] reaches /embed, [Bearer wrong]
    and a missing header are answered 401 and the model is not called, and
    /health needs no header. *)
Example scenario_bearer_ok :
  status_of (app (request_ "POST" "/embed" (Some "Bearer S")
                    (Some (JObj [("text", JStr "hello")])))
               (world (Some "S") (Some model3))) = Some 200.
Proof. vm_compute. reflexivity. Qed.

Example scenario_bearer_wrong :
  app (request_ "POST" "/embed" (Some "Bearer wrong")
         (Some (JObj [("text", JStr "hello")])))
    (world (Some "S") (Some model3))
  = (Ok (with_cors (JSONResponse 401 (JObj [("error", JStr "Unauthorized")]))),
     world (Some "S") (Some model3)).
Proof. vm_compute. reflexivity. Qed.

Example scenario_no_header :
  status_of (app (request_ "POST" "/embed" None (Some (JObj [("text", JStr "hello")])))
               (world (Some "S") (Some model3))) = Some 401.
Proof. vm_compute. reflexivity. Qed.

Example scenario_health_no_header :
  status_of (app (request_ "GET" "/health" None None) (world (Some "S") None))
  = Some 200.
Proof. vm_compute. reflexivity. Qed.

(** An empty secret is no secret. *)
Example scenario_empty_token :
  status_of (app (request_ "GET" "/model/info" None None) (world (Some "") None))
  = Some 200.
Proof. vm_compute. reflexivity. Qed.

(** No secret, the model loaded: a text is embedded, a batch of three gives
    three vectors. *)
Example scenario_embed :
  (app (request_ "POST" "/embed" None (Some (JObj [("text", JStr "hello")])))
     (world None (Some model3))).1
  = Ok (with_cors (JSONResponse 200
          (JObj [("embedding", JArr (JFloat <$> vec3));
                 ("dimensions", JInt 3);
                 ("model", JStr "intfloat/multilingual-e5-large")]))).
Proof. vm_compute. reflexivity. Qed.

Example scenario_batch :
  (app (request_ "POST" "/embed/batch" None
          (Some (JObj [("texts", JArr [JStr "a"; JStr "b"; JStr "c"])])))
     (world None (Some model3))).1
  = Ok (with_cors (JSONResponse 200
          (JObj [("embeddings",
                  JArr [JArr (JFloat <$> vec3); JArr (JFloat <$> vec3);
                        JArr (JFloat <$> vec3)]);
                 ("dimensions", JInt 3);
                 ("model", JStr "intfloat/multilingual-e5-large")]))).
Proof. vm_compute. reflexivity. Qed.

(** The model not loaded: 503, but a malformed body is turned down first. *)
Example scenario_not_loaded :
  status_of (app (request_ "POST" "/embed" None (Some (JObj [("text", JStr "hello")])))
               (world None None)) = Some 503.
Proof. vm_compute. reflexivity. Qed.

Example scenario_not_loaded_empty_text :
  status_of (app (request_ "POST" "/embed" None (Some (JObj [("text", JStr "")])))
               (world None None)) = Some 422.
Proof. vm_compute. reflexivity. Qed.

(** Routing: a known path with another method is 405; OPTIONS reaches the
    catch-all route on any path. *)
Example scenario_wrong_method :
  status_of (app (request_ "GET" "/embed" None None) (world None None)) = Some 405.
Proof. vm_compute. reflexivity. Qed.

Example scenario_options_health :
  status_of (app (request_ "OPTIONS" "/health" None None) (world (Some "S") None))
  = Some 204.
Proof. vm_compute. reflexivity. Qed.

(** A load that fails: startup raises, nothing is served. *)
Example scenario_load_fails :
  lifespan (λ _, inl (Exception "no such model"))
    (app (request_ "GET" "/health" None None)) (world None None)
  = (Raised (Exception "no such model"),
     {| AUTH_TOKEN := None; model := None;
        trace := [Stdout "[Embedding Service] 🚀 Starting embedding service...";
                  Stdout "[Embedding Service] 📦 Loading model: intfloat/multilingual-e5-large";
                  Stdout "[Embedding Service] ⏳ This may take 30-60 seconds on first run...";
                  LoadModel "intfloat/multilingual-e5-large";
                  Stdout "[Embedding Service] ❌ Failed to load model: no such model"] |}).
Proof. vm_compute. reflexivity. Qed.

(** * Further properties *)

(** ** Extending the trace *)

Lemma extend_nil (w : World) : extend [] w = w.
Proof. destruct w. unfold extend. simpl. by rewrite app_nil_r. Qed.

Lemma extend_extend (a b : list event) (w : World) :
  extend b (extend a w) = extend (a ++ b) w.
Proof. unfold extend. simpl. by rewrite <- (assoc_L (++)). Qed.

Lemma emit_extend (e : event) (w : World) : emit e w = extend [e] w.
Proof. reflexivity. Qed.

Lemma same_globals_extend (a b : list event) (w1 w2 : World) :
  same_globals w1 w2 → same_globals (extend a w1) (extend b w2).
Proof. by intros [? ?]. Qed.

(** ** Computations that read the globals only *)

Lemma rgo_ret {A} (a : A) : reads_globals_only (mret a).
Proof.
  intros w1 w2 _. exists (Ok a), []. by rewrite !extend_nil.
Qed.

Lemma rgo_raise {A} (e : exn) : reads_globals_only (@raise A e).
Proof.
  intros w1 w2 _. exists (Raised e), []. by rewrite !extend_nil.
Qed.

Lemma rgo_print (line : string) : reads_globals_only (print line).
Proof. intros w1 w2 _. by exists (Ok ()), [Stdout line]. Qed.

Lemma rgo_call {A} (e : event) (r : exn + A) : reads_globals_only (call e r).
Proof.
  intros w1 w2 _. unfold call.
  destruct r as [err|a]; [by exists (Raised err), [e] | by exists (Ok a), [e]].
Qed.

Lemma rgo_lift {A} (r : exn + A) : reads_globals_only (lift r).
Proof. destruct r as [e|a]; [apply rgo_raise|apply rgo_ret]. Qed.

Lemma rgo_gets_AUTH_TOKEN : reads_globals_only (gets AUTH_TOKEN).
Proof.
  intros w1 w2 [Ht _]. exists (Ok (AUTH_TOKEN w1)), [].
  rewrite !extend_nil. unfold gets. by rewrite Ht.
Qed.

Lemma rgo_gets_model : reads_globals_only (gets model).
Proof.
  intros w1 w2 [_ Hm]. exists (Ok (model w1)), [].
  rewrite !extend_nil. unfold gets. by rewrite Hm.
Qed.

Lemma rgo_bind {A B} (c : M A) (f : A → M B) :
  reads_globals_only c → (∀ a, reads_globals_only (f a)) →
  reads_globals_only (c ≫= f).
Proof.
  intros Hc Hf w1 w2 Hw.
  destruct (Hc w1 w2 Hw) as (o & new & H1 & H2).
  destruct o as [a|e].
  - destruct (Hf a (extend new w1) (extend new w2)) as (o' & new' & H1' & H2');
      [by apply same_globals_extend|].
    exists o', (new ++ new')%list.
    rewrite (bind_ok _ _ _ _ _ H1), (bind_ok _ _ _ _ _ H2).
    by rewrite H1', H2', !extend_extend.
  - exists (Raised e), new.
    by rewrite (bind_raised _ _ _ _ _ H1), (bind_raised _ _ _ _ _ H2).
Qed.

Lemma rgo_try_except {A} (body : M A) (handler : exn → M A) :
  reads_globals_only body → (∀ e, reads_globals_only (handler e)) →
  reads_globals_only (try_except body handler).
Proof.
  intros Hc Hh w1 w2 Hw. unfold try_except.
  destruct (Hc w1 w2 Hw) as (o & new & -> & ->).
  destruct o as [a|e]; [by exists (Ok a), new|].
  destruct (Hh e (extend new w1) (extend new w2)) as (o' & new' & -> & ->);
    [by apply same_globals_extend|].
  exists o', (new ++ new')%list. by rewrite !extend_extend.
Qed.

Create HintDb rgo.
#[local] Hint Resolve rgo_ret rgo_raise rgo_print rgo_call rgo_lift rgo_gets_AUTH_TOKEN
  rgo_gets_model rgo_bind rgo_try_except : rgo.

Lemma rgo_embed (req : EmbedRequest.t) : reads_globals_only (embed req).
Proof.
  unfold embed. apply rgo_bind; [auto with rgo|].
  intros [m|]; cbv zeta; auto 10 with rgo.
Qed.

Lemma rgo_embed_batch (req : EmbedBatchRequest.t) :
  reads_globals_only (embed_batch req).
Proof.
  unfold embed_batch. apply rgo_bind; [auto with rgo|].
  intros [m|]; cbv zeta; [|auto with rgo].
  apply rgo_try_except; [|auto 10 with rgo].
  apply rgo_bind; [auto with rgo|]. intros vectors.
  apply rgo_bind; [auto with rgo|]. intros _.
  apply rgo_bind; [|auto with rgo].
  destruct vectors as [|first rest]; simpl; [auto with rgo|].
  unfold item0. simpl. auto with rgo.
Qed.

Lemma rgo_run_endpoint (e : endpoint) (request : Request) :
  reads_globals_only (run_endpoint e request).
Proof.
  destruct e; simpl.
  - unfold health. auto with rgo.
  - destruct (EmbedRequest.validate (body request)); [auto with rgo|].
    apply rgo_bind; [apply rgo_embed|auto with rgo].
  - destruct (EmbedBatchRequest.validate (body request)); [auto with rgo|].
    apply rgo_bind; [apply rgo_embed_batch|auto with rgo].
  - unfold model_info. auto with rgo.
  - unfold options_handler. auto with rgo.
Qed.

Lemma rgo_dispatch (rs : list Route) (partial : option Route) (request : Request) :
  reads_globals_only (dispatch rs partial request).
Proof.
  revert partial. induction rs as [|r rs IH]; intros partial; simpl.
  - destruct partial; auto with rgo.
  - destruct (matches r request); auto using rgo_run_endpoint.
Qed.

Lemma rgo_router (request : Request) : reads_globals_only (router request).
Proof.
  unfold router, exception_handlers.
  apply rgo_try_except; [apply rgo_dispatch|].
  intros [status detail|errors|message]; auto with rgo.
Qed.

Lemma rgo_auth_middleware (request : Request) (call_next : Request → M Response) :
  (∀ r, reads_globals_only (call_next r)) →
  reads_globals_only (auth_middleware request call_next).
Proof.
  intros Hn. unfold auth_middleware.
  apply rgo_bind; [auto with rgo|]. intros p. case_decide; [done|].
  apply rgo_bind; [auto with rgo|]. intros token.
  destruct (negb (truthy token)); [done|].
  cbv zeta. destruct (_ || _); auto with rgo.
Qed.

Lemma rgo_cors_middleware (request : Request) (call_next : Request → M Response) :
  (∀ r, reads_globals_only (call_next r)) →
  reads_globals_only (cors_middleware request call_next).
Proof.
  intros Hn. unfold cors_middleware. apply rgo_bind; [done|].
  intros response. cbv zeta. auto with rgo.
Qed.

Lemma rgo_app (request : Request) : reads_globals_only (app request).
Proof.
  unfold app, server_error_middleware.
  apply rgo_try_except; [|auto with rgo].
  apply rgo_cors_middleware. intros r.
  apply rgo_auth_middleware. apply rgo_router.
Qed.

(** ** A response does not depend on what came before *)

(** The answer to a request, and what serving it prints and asks of the
    model, are the same in two worlds with the same [AUTH_TOKEN] and the same
    [model]: nothing of what was served before is kept or read. *)
Theorem response_ignores_history (request : Request) (w1 w2 : World) :
  AUTH_TOKEN w1 = AUTH_TOKEN w2 → model w1 = model w2 →
  ∃ o new,
    app request w1 = (o, extend new w1) ∧ app request w2 = (o, extend new w2).
Proof. intros Ht Hm. by apply rgo_app. Qed.

Lemma response_ignores_history_witness :
  ∃ o new,
    app (request_ "POST" "/embed" (Some "Bearer S") (Some (JObj [("text", JStr "hello")])))
      (world (Some "S") (Some model3))
    = (o, extend new (world (Some "S") (Some model3))) ∧
    app (request_ "POST" "/embed" (Some "Bearer S") (Some (JObj [("text", JStr "hello")])))
      {| AUTH_TOKEN := Some "S"; model := Some model3;
         trace := [Encode "earlier"; Stdout "earlier"] |}
    = (o, extend new {| AUTH_TOKEN := Some "S"; model := Some model3;
                        trace := [Encode "earlier"; Stdout "earlier"] |}).
Proof.
  apply (response_ignores_history
           (request_ "POST" "/embed" (Some "Bearer S")
              (Some (JObj [("text", JStr "hello")])))
           (world (Some "S") (Some model3))
           {| AUTH_TOKEN := Some "S"; model := Some model3;
              trace := [Encode "earlier"; Stdout "earlier"] |}); reflexivity.
Defined.

(** No exception leaves the application: every request gets a response. *)
Lemma app_returns (request : Request) (w : World) :
  ∃ response new, app request w = (Ok response, extend new w).
Proof.
  destruct (rgo_app request w w) as (o & new & Happ & _); [done|].
  destruct o as [response|e]; [by exists response, new|].
  exfalso. revert Happ. unfold app, server_error_middleware, try_except.
  by destruct (cors_middleware _ _ w) as [[?|?] ?].
Qed.

Lemma mapM_app_extends (requests : list Request) (w : World) :
  ∃ responses new,
    mapM app requests w = (Ok responses, extend new w) ∧
    length responses = length requests.
Proof.
  revert w. induction requests as [|request requests IH]; intros w.
  - exists [], []. by rewrite extend_nil.
  - destruct (app_returns request w) as (response & new & Happ).
    destruct (IH (extend new w)) as (responses & new' & Hrest & Hlen).
    exists (response :: responses), (new ++ new')%list. split.
    + cbn [mapM]. erewrite bind_ok by exact Happ.
      erewrite bind_ok by exact Hrest. by rewrite extend_extend.
    + simpl. by rewrite Hlen.
Qed.

(** Serving requests, any number of them one after the other, answers each
    and leaves [AUTH_TOKEN] and [model] as they were: no request sets the
    token or swaps the model. *)
Theorem requests_keep_globals (requests : list Request) (w : World) :
  ∃ responses w',
    mapM app requests w = (Ok responses, w') ∧
    length responses = length requests ∧
    AUTH_TOKEN w' = AUTH_TOKEN w ∧ model w' = model w.
Proof.
  destruct (mapM_app_extends requests w) as (responses & new & Hrun & Hlen).
  by exists responses, (extend new w).
Qed.

(** ** Dispatch, case by case *)

Lemma dispatch_cases (rs : list Route) (partial : option Route) (request : Request) :
  (∃ r, r ∈ rs ∧ matches r request = FULL ∧
        dispatch rs partial request = run_endpoint (route_endpoint r) request) ∨
  dispatch rs partial request = raise (HTTPException 405 "Method Not Allowed") ∨
  (partial = None ∧ (∀ r, r ∈ rs → matches r request = NONE) ∧
   dispatch rs partial request = raise (HTTPException 404 "Not Found")).
Proof.
  revert partial. induction rs as [|r rs IH]; intros partial; simpl.
  - destruct partial; [by right; left|].
    right; right. split; [done|]. split; [|done]. by intros r Hr%elem_of_nil.
  - destruct (matches r request) eqn:Hm.
    + destruct (IH partial) as [(r' & Hin & Hf & Hd)|[Hd|(Hp & Hn & Hd)]].
      * left. exists r'. split; [by right|done].
      * by right; left.
      * right; right. split; [done|]. split; [|done].
        intros r' [->|Hin]%elem_of_cons; auto.
    + destruct (IH (match partial with Some p => Some p | None => Some r end))
        as [(r' & Hin & Hf & Hd)|[Hd|(Hp & _)]].
      * left. exists r'. split; [by right|done].
      * by right; left.
      * by destruct partial.
    + left. exists r. split; [by left|done].
Qed.

Lemma append_String (a : ascii) (l s : string) :
  String a l +:+ s = String a (l +:+ s).
Proof. reflexivity. Qed.

Lemma append_empty (l : string) : l +:+ "" = l.
Proof.
  induction l as [|a l IH]; [done|]. rewrite append_String. by f_equal.
Qed.

Lemma append_cancel (l a b : string) : l +:+ a = l +:+ b → a = b.
Proof.
  induction l as [|c l IH]; [done|]. rewrite !append_String. intros [= H]. auto.
Qed.

Lemma strip_prefix_Some (p s rest : string) :
  strip_prefix p s = Some rest ↔ s = p +:+ rest.
Proof.
  revert s. induction p as [|a p IH]; intros s.
  - change ("" +:+ rest) with rest. simpl. split; [by intros [= ->]|by intros ->].
  - rewrite append_String. destruct s as [|b s]; simpl; [by split|].
    case_decide as Hab.
    + subst b. rewrite IH. split; [by intros ->|by intros [= ->]].
    + split; [done|]. intros [= ? _]. by destruct Hab.
Qed.

(** The regex of a literal path matches the path itself and the path
    followed by one newline, nothing else. *)
Lemma literal_matches (l s : string) :
  path_matches (Literal l) s = true ↔ s = l ∨ s = l +:+ String newline "".
Proof.
  cbn [path_matches]. destruct (strip_prefix l s) as [rest|] eqn:Hs.
  - apply strip_prefix_Some in Hs as ->. unfold at_end.
    rewrite orb_true_iff, !bool_decide_eq_true. split.
    + intros [H|H]; rewrite H; [left; apply append_empty|by right].
    + intros [H|H]; [left|right].
      * apply (append_cancel l). by rewrite append_empty.
      * by apply (append_cancel l).
  - split; [done|].
    assert (∀ rest, s ≠ l +:+ rest) as Hne.
    { intros rest Heq. apply strip_prefix_Some in Heq. congruence. }
    intros [H|H]; [|by destruct (Hne _ H)].
    destruct (Hne ""). by rewrite append_empty.
Qed.

(** The routes and what a full match says of the request. *)
Lemma full_match (r : Route) (request : Request) :
  r ∈ routes → matches r request = FULL →
  (route_endpoint r = ep_health ∧ method request = "GET" ∧
   path_matches (Literal "/health") (path request) = true) ∨
  (route_endpoint r = ep_embed ∧ method request = "POST" ∧
   path_matches (Literal "/embed") (path request) = true) ∨
  (route_endpoint r = ep_embed_batch ∧ method request = "POST" ∧
   path_matches (Literal "/embed/batch") (path request) = true) ∨
  (route_endpoint r = ep_model_info ∧ method request = "GET" ∧
   path_matches (Literal "/model/info") (path request) = true) ∨
  (route_endpoint r = ep_options_handler ∧ method request = "OPTIONS" ∧
   path_matches (PathParam "/") (path request) = true).
Proof.
  unfold routes, matches. intros Hin Hm.
  repeat (apply elem_of_cons in Hin as [->|Hin]); [..|by apply elem_of_nil in Hin];
    cbn [route_path route_methods route_endpoint] in *;
    match type of Hm with
    | context [path_matches ?p ?s] => destruct (path_matches p s) eqn:Hp; [|done]
    end;
    match type of Hm with
    | context [bool_decide ?P] => destruct (bool_decide_reflect P) as [Hmeth|]; [|done]
    end;
    apply list_elem_of_singleton in Hmeth; tauto.
Qed.

Lemma emit_emit (a b : event) (w : World) : emit b (emit a w) = extend [a; b] w.
Proof. unfold emit, extend. simpl. by rewrite <- (assoc_L (++)). Qed.

(** Membership in a list that is written out. *)
Ltac in_list := rewrite !elem_of_cons; auto 10.

(** What is raised instead of a validated body. *)
Lemma read_body_error (body : Body) (e : exn) :
  read_body body = inl e →
  e = HTTPException 400 "There was an error parsing the body" ∨
  ∃ errors, e = RequestValidationError errors.
Proof. destruct body as [[]| | | |]; simpl; intros [= <-]; eauto. Qed.

Lemma validate_error (body : Body) (e : exn) :
  EmbedRequest.validate body = inl e →
  e = HTTPException 400 "There was an error parsing the body" ∨
  ∃ errors, e = RequestValidationError errors.
Proof.
  unfold EmbedRequest.validate.
  destruct (read_body body) as [e'|document] eqn:Hb.
  - intros [= <-]. by eapply read_body_error.
  - destruct document as [| | | | | |fields]; try (intros [= <-]; by eauto).
    destruct (dict_get "text" fields) as [[| | | |s| |]|];
      try (intros [= <-]; by eauto).
    case_decide; intros [= <-]; eauto.
Qed.

Lemma validate_batch_error (body : Body) (e : exn) :
  EmbedBatchRequest.validate body = inl e →
  e = HTTPException 400 "There was an error parsing the body" ∨
  ∃ errors, e = RequestValidationError errors.
Proof.
  unfold EmbedBatchRequest.validate.
  destruct (read_body body) as [e'|document] eqn:Hb.
  - intros [= <-]. by eapply read_body_error.
  - destruct document as [| | | | | |fields]; try (intros [= <-]; by eauto).
    destruct (dict_get "texts" fields) as [[| | | | |items|]|];
      try (intros [= <-]; by eauto).
    destruct (EmbedBatchRequest.strings items); [|intros [= <-]; by eauto].
    case_decide; intros [= <-]; eauto.
Qed.

Lemma answers_embed (request : Request) (w : World) :
  ∃ status c w',
    exception_handlers (run_endpoint ep_embed request) w
    = (Ok (JSONResponse status c), w') ∧
    (400 ≤ status → ∃ d, c = JObj [("detail", d)]) ∧
    ((w' = w ∧ (status = 400 ∨ status = 422)) ∨
     (w' = w ∧ status = 503 ∧ model w = None) ∨
     (∃ req line,
        EmbedRequest.validate (body request) = inr req ∧ is_Some (model w) ∧
        w' = extend [Encode (EmbedRequest.text req); Stdout line] w ∧
        (status = 200 ∨ status = 500))).
Proof.
  unfold exception_handlers, try_except, run_endpoint.
  destruct (EmbedRequest.validate (body request)) as [e|req] eqn:Hv.
  { destruct (validate_error _ _ Hv) as [->|[errors ->]];
      eexists _, _, _; (split; [reflexivity|]); (split; [eauto|]); left; eauto. }
  destruct (model w) as [m|] eqn:Hmodel.
  - destruct (encode m (EmbedRequest.text req)) as [e|v] eqn:He.
    + erewrite bind_raised by (by eapply embed_failed).
      eexists _, _, _. split; [reflexivity|]. split; [eauto|].
      right; right. eexists _, _. rewrite emit_emit. eauto 10.
    + erewrite bind_ok by (by eapply embed_encoded).
      eexists _, _, _. split; [reflexivity|]. split; [intros; lia|].
      right; right. eexists _, _. rewrite emit_emit. eauto 10.
  - erewrite bind_raised by (by apply embed_not_loaded).
    eexists _, _, _. split; [reflexivity|]. split; [eauto|]. right; left. done.
Qed.

Lemma answers_embed_batch (request : Request) (w : World) :
  ∃ status c w',
    exception_handlers (run_endpoint ep_embed_batch request) w
    = (Ok (JSONResponse status c), w') ∧
    (400 ≤ status → ∃ d, c = JObj [("detail", d)]) ∧
    ((w' = w ∧ (status = 400 ∨ status = 422)) ∨
     (w' = w ∧ status = 503 ∧ model w = None) ∨
     (∃ req line,
        EmbedBatchRequest.validate (body request) = inr req ∧ is_Some (model w) ∧
        w' = extend [EncodeBatch (EmbedBatchRequest.texts req); Stdout line] w ∧
        (status = 200 ∨ status = 500))).
Proof.
  unfold exception_handlers, try_except, run_endpoint.
  destruct (EmbedBatchRequest.validate (body request)) as [e|req] eqn:Hv.
  { destruct (validate_batch_error _ _ Hv) as [->|[errors ->]];
      eexists _, _, _; (split; [reflexivity|]); (split; [eauto|]); left; eauto. }
  destruct (model w) as [m|] eqn:Hmodel.
  - destruct (encode_batch m (EmbedBatchRequest.texts req)) as [e|v] eqn:He.
    + erewrite bind_raised by (by eapply embed_batch_failed).
      eexists _, _, _. split; [reflexivity|]. split; [eauto|].
      right; right. eexists _, _. rewrite emit_emit. eauto 10.
    + erewrite bind_ok by (by eapply embed_batch_encoded).
      eexists _, _, _. split; [reflexivity|]. split; [intros; lia|].
      right; right. eexists _, _. rewrite emit_emit. eauto 10.
  - erewrite bind_raised by (by apply embed_batch_not_loaded).
    eexists _, _, _. split; [reflexivity|]. split; [eauto|]. right; left. done.
Qed.

(** Every way the router answers. *)
Lemma router_cases (request : Request) (w : World) :
  ∃ status c w',
    router request w = (Ok (JSONResponse status c), w') ∧
    (400 ≤ status → ∃ d, c = JObj [("detail", d)]) ∧
    ((w' = w ∧ status ∈ [200; 204; 400; 405; 422]) ∨
     (w' = w ∧ status = 404 ∧
      path_matches (PathParam "/") (path request) = false) ∨
     (w' = w ∧ status = 503 ∧ model w = None) ∨
     (∃ req line,
        method request = "POST" ∧
        path_matches (Literal "/embed") (path request) = true ∧
        EmbedRequest.validate (body request) = inr req ∧ is_Some (model w) ∧
        w' = extend [Encode (EmbedRequest.text req); Stdout line] w ∧
        (status = 200 ∨ status = 500)) ∨
     (∃ req line,
        method request = "POST" ∧
        path_matches (Literal "/embed/batch") (path request) = true ∧
        EmbedBatchRequest.validate (body request) = inr req ∧ is_Some (model w) ∧
        w' = extend [EncodeBatch (EmbedBatchRequest.texts req); Stdout line] w ∧
        (status = 200 ∨ status = 500))).
Proof.
  unfold router.
  destruct (dispatch_cases routes None request)
    as [(r & Hin & Hfull & ->)|[->|(_ & Hnone & ->)]].
  - destruct (full_match r request Hin Hfull)
      as [(-> & Hm & Hp)|[(-> & Hm & Hp)|[(-> & Hm & Hp)|[(-> & Hm & Hp)|(-> & Hm & Hp)]]]].
    + eexists _, _, _. split; [reflexivity|]. split; [intros; lia|].
      left. split; [done|]. in_list.
    + destruct (answers_embed request w) as (status & c & w' & Heq & Hdet & Hcases).
      exists status, c, w'. split; [exact Heq|]. split; [exact Hdet|].
      destruct Hcases as [[-> Hs]|[H503|(req & line & Hc)]].
      * left. split; [done|]. destruct Hs as [-> | ->]; in_list.
      * by right; right; left.
      * do 3 right. left. exists req, line. tauto.
    + destruct (answers_embed_batch request w) as (status & c & w' & Heq & Hdet & Hcases).
      exists status, c, w'. split; [exact Heq|]. split; [exact Hdet|].
      destruct Hcases as [[-> Hs]|[H503|(req & line & Hc)]].
      * left. split; [done|]. destruct Hs as [-> | ->]; in_list.
      * by right; right; left.
      * do 4 right. exists req, line. tauto.
    + eexists _, _, _. split; [reflexivity|]. split; [intros; lia|].
      left. split; [done|]. in_list.
    + eexists _, _, _. split; [reflexivity|]. split; [intros; lia|].
      left. split; [done|]. in_list.
  - eexists _, _, _. split; [reflexivity|]. split; [by eexists|].
    left. split; [done|]. in_list.
  - eexists _, _, _. split; [reflexivity|]. split; [by eexists|].
    right; left. split; [done|]. split; [done|].
    specialize (Hnone {| route_path := PathParam "/"; route_methods := ["OPTIONS"];
                         route_endpoint := ep_options_handler |}).
    unfold matches in Hnone. cbn [route_path route_methods] in Hnone.
    destruct (path_matches (PathParam "/") (path request)); [|done].
    assert (NONE = (if bool_decide (method request ∈ ["OPTIONS"]) then FULL else PARTIAL))
      as Hc by (symmetry; apply Hnone; unfold routes; in_list).
    by destruct (bool_decide _).
Qed.

(** Every way the application answers: the gate's 401, the 500 of the
    outermost layer for what the gate raised, or what the router answers; the
    cross-origin headers are set on the first and the last. *)
Lemma app_cases (request : Request) (w : World) :
  ∃ response w',
    app request w = (Ok response, w') ∧
    ((rejects request w ∧ w' = w ∧
      response = with_cors (JSONResponse 401 (JObj [("error", JStr "Unauthorized")]))) ∨
     ((∃ e, url_path request = inl e) ∧ w' = w ∧
      response = PlainTextResponse 500 "Internal Server Error") ∨
     (admits request w ∧
      ∃ status c,
        response = with_cors (JSONResponse status c) ∧
        router request w = (Ok (JSONResponse status c), w'))).
Proof.
  destruct (gate_decides request w) as [Ha|[Hr|[e He]]].
  - destruct (router_cases request w) as (status & c & w' & Hrt & _).
    eexists _, w'. split; [by apply app_admitted|].
    right; right. split; [done|]. by exists status, c.
  - eexists _, _. split; [by apply app_rejected|]. by left.
  - eexists _, _. split; [by apply (app_raised _ _ e)|].
    right; left. split; [by exists e|done].
Qed.

(** ** The model is called at most once *)

Lemma nonempty_text (s : string) : (1 ≤ String.length s)%nat → s ≠ "".
Proof. intros H ->. simpl in H. lia. Qed.

Lemma nonempty_texts {A} (l : list A) : (1 ≤ length l)%nat → l ≠ [].
Proof. intros H ->. simpl in H. lia. Qed.

(** Serving a request calls the model at most once: not at all, or once with
    the text of a POST that the route /embed matches, which is not empty, or
    once with the whole sequence of a POST that the route /embed/batch
    matches, which is not empty; each call is followed by one printed line,
    and no call is made while no model is loaded.  Nothing else is done to the
    world.  (A route matches its path, and its path followed by one
    newline.) *)
Theorem model_called_at_most_once (request : Request) (w : World) :
  ∃ new,
    (app request w).2 = extend new w ∧
    (new = [] ∨
     (∃ text line,
        new = [Encode text; Stdout line] ∧ text ≠ "" ∧
        method request = "POST" ∧
        (path request = "/embed" ∨ path request = "/embed" +:+ String newline "") ∧
        is_Some (model w)) ∨
     (∃ texts line,
        new = [EncodeBatch texts; Stdout line] ∧ texts ≠ [] ∧
        method request = "POST" ∧
        (path request = "/embed/batch" ∨
         path request = "/embed/batch" +:+ String newline "") ∧
        is_Some (model w))).
Proof.
  destruct (app_cases request w) as (response & w' & Happ & Hcases).
  rewrite Happ. simpl.
  destruct Hcases as [(_ & -> & _)|[(_ & -> & _)|(_ & status & c & _ & Hrt)]];
    try (exists []; split; [by rewrite extend_nil|by left]).
  destruct (router_cases request w) as (status' & c' & w'' & Hrt' & Hdetail & Hcases).
  rewrite Hrt in Hrt'. injection Hrt' as <- <- <-.
  destruct Hcases
    as [[-> _]|[(-> & _)|[(-> & _)|[(req & line & Hc)|(req & line & Hc)]]]];
    try (exists []; split; [by rewrite extend_nil|by left]).
  - destruct Hc as (Hm & Hp%literal_matches & Hv & Hmodel & -> & _).
    eexists. split; [done|]. right; left. eexists _, _.
    repeat split; try done.
    by eapply nonempty_text, validate_text_nonempty.
  - destruct Hc as (Hm & Hp%literal_matches & Hv & Hmodel & -> & _).
    eexists. split; [done|]. right; right. eexists _, _.
    repeat split; try done.
    by eapply nonempty_texts, validate_batch_nonempty.
Qed.

(** ** Unknown paths and wrong methods *)

Lemma router_wrong_method (request : Request) (w : World) (p m : string) :
  (p, m) ∈ [("/health", "GET"); ("/embed", "POST"); ("/embed/batch", "POST");
            ("/model/info", "GET")] →
  path request = p → method request ≠ m → method request ≠ "OPTIONS" →
  router request w
  = (Ok (JSONResponse 405 (JObj [("detail", JStr "Method Not Allowed")])), w).
Proof.
  intros Hin Hp Hm Ho. unfold router, routes.
  cbn [dispatch route_endpoint]. unfold matches.
  cbn [route_path route_methods]. rewrite Hp.
  assert (bool_decide (method request ∈ ["OPTIONS"]) = false) as ->
    by (apply bool_decide_false; by rewrite list_elem_of_singleton).
  assert (bool_decide (method request ∈ [m]) = false) as Hm'
    by (apply bool_decide_false; by rewrite list_elem_of_singleton).
  revert Hin. rewrite !elem_of_cons.
  intros [[= -> ->]|[[= -> ->]|[[= -> ->]|[[= -> ->]|[]%elem_of_nil]]]];
    rewrite Hm'; reflexivity.
Qed.

(** The catch-all OPTIONS route matches every path made of a slash and
    anything without a newline, so no request to such a path is answered 404;
    and a declared path asked with a method that is neither its own nor
    OPTIONS is answered 405, the world untouched, once the auth gate has let
    the request in. *)
Theorem not_found_needs_no_slash (request : Request) (w : World) :
  ∃ response w',
    app request w = (Ok response, w') ∧
    (∀ rest,
       path request = "/" +:+ rest → no_newline rest = true →
       status_code response ≠ 404) ∧
    (∀ p m,
       (p, m) ∈ [("/health", "GET"); ("/embed", "POST"); ("/embed/batch", "POST");
                 ("/model/info", "GET")] →
       admits request w → path request = p →
       method request ≠ m → method request ≠ "OPTIONS" →
       status_code response = 405 ∧ w' = w).
Proof.
  destruct (app_cases request w) as (response & w' & Happ & Hcases).
  exists response, w'. split; [exact Happ|]. split.
  - intros rest Hp Hn.
    destruct Hcases as [(_ & _ & ->)|[(_ & _ & ->)|(_ & status & c & -> & Hrt)]];
      [done|done|]. simpl.
    destruct (router_cases request w) as (status' & c' & w'' & Hrt' & Hdetail & Hcases).
    rewrite Hrt in Hrt'. injection Hrt' as <- <- <-.
    destruct Hcases
      as [[_ Hs]|[(_ & _ & Hno)|[(_ & -> & _)|[(? & ? & Hc)|(? & ? & Hc)]]]];
      [| |done|..].
    + intros ->. revert Hs. rewrite !elem_of_cons.
      by intros [|[|[|[|[|[]%elem_of_nil]]]]].
    + rewrite Hp, slash_path_matches in Hno by done. done.
    + by destruct Hc as (_ & _ & _ & _ & _ & [-> | ->]).
    + by destruct Hc as (_ & _ & _ & _ & _ & [-> | ->]).
  - intros p m Hin Ha Hp Hm Ho.
    destruct Hcases as [(Hr & _)|[([e He] & _)|(_ & status & c & -> & Hrt)]].
    + destruct (admits_rejects _ _ Ha Hr).
    + destruct (admits_readable _ _ Ha) as [p' Hp']. congruence.
    + rewrite (router_wrong_method request w p m) in Hrt by done.
      by injection Hrt as <- <- <-.
Qed.

(** ** The cross-origin middleware, whatever it wraps *)

(** Around any inner chain, [cors_middleware] changes nothing of a response
    but the three headers it sets: status, content and every header kept
    under another (lower-case) name are those of the inner response.  An
    exception of the inner chain passes through it, and no header is set. *)
Theorem cors_sets_three_headers (request : Request)
    (call_next : Request → M Response) (w : World) :
  match call_next request w with
  | (Ok inner, w') =>
      ∃ response,
        cors_middleware request call_next w = (Ok response, w') ∧
        status_code response = status_code inner ∧
        content response = content inner ∧
        get_header "Access-Control-Allow-Origin" response = Some "*" ∧
        get_header "Access-Control-Allow-Methods" response
        = Some "GET, POST, OPTIONS" ∧
        get_header "Access-Control-Allow-Headers" response
        = Some "Content-Type, Authorization" ∧
        ∀ k, k ∉ ["access-control-allow-origin"; "access-control-allow-methods";
                  "access-control-allow-headers"] →
             response_headers response !! k = response_headers inner !! k
  | (Raised e, w') => cors_middleware request call_next w = (Raised e, w')
  end.
Proof.
  destruct (call_next request w) as [[inner|e] w'] eqn:Hn.
  - exists (with_cors inner). split.
    { unfold cors_middleware. by erewrite bind_ok by exact Hn. }
    destruct (with_cors_headers inner) as (? & ? & ?).
    repeat (split; [done|]).
    intros k Hk. unfold with_cors, set_header. simpl.
    change (lower "Access-Control-Allow-Origin") with "access-control-allow-origin".
    change (lower "Access-Control-Allow-Methods") with "access-control-allow-methods".
    change (lower "Access-Control-Allow-Headers") with "access-control-allow-headers".
    rewrite !lookup_insert_ne; [done|intros <-; apply Hk; in_list..].
  - unfold cors_middleware. by erewrite bind_raised by exact Hn.
Qed.

(** ** What the auth gate reads *)

Lemma admits_iff (request : Request) (w : World) :
  admits request w ↔
  ∃ p, url_path request = inr p ∧
       (p = "/health" ∨ truthy (AUTH_TOKEN w) = false ∨
        headers request !! "Authorization"
        = Some ("Bearer " +:+ format (AUTH_TOKEN w))).
Proof.
  split.
  - intros Ha. destruct (admits_readable _ _ Ha) as [p Hu]. exists p.
    split; [done|].
    destruct (decide (p = "/health")) as [|Hp]; [by left|].
    destruct (truthy (AUTH_TOKEN w)) eqn:Ht; [|by right; left].
    apply truthy_true in Ht as (secret & Ht & Hs). rewrite Ht. simpl.
    destruct (decide (headers request !! "Authorization" = Some ("Bearer " +:+ secret)))
      as [|Hne]; [by right; right|].
    destruct (admits_rejects request w Ha). by eapply auth_mismatch.
  - intros (p & Hu & [->|[Ht|Hh]]).
    + by apply auth_health.
    + apply (auth_open _ _ p); [done|]. by apply truthy_false.
    + destruct (AUTH_TOKEN w) as [secret|] eqn:Ht.
      * by eapply auth_match.
      * apply (auth_open _ _ p); [done|]. by left.
Qed.

Lemma rejects_iff (request : Request) (w : World) :
  rejects request w ↔ (∃ p, url_path request = inr p) ∧ ¬ admits request w.
Proof.
  split.
  - intros Hr. split; [by eapply rejects_readable|].
    intros Ha. by eapply admits_rejects.
  - intros [[p Hu] Hn].
    destruct (gate_decides request w) as [?|[?|[e He]]]; [done|done|congruence].
Qed.

(** The gate decides on [request.url.path], the [Authorization] header and
    [AUTH_TOKEN] alone: two requests that agree on the first two meet the
    same decision under the same token, whatever their methods, bodies and
    other headers, the paths they are routed by, and whatever the model and
    the past of the world. *)
Theorem gate_reads_path_and_header (r1 r2 : Request) (w1 w2 : World) :
  url_path r1 = url_path r2 →
  headers r1 !! "Authorization" = headers r2 !! "Authorization" →
  AUTH_TOKEN w1 = AUTH_TOKEN w2 →
  (admits r1 w1 ↔ admits r2 w2) ∧ (rejects r1 w1 ↔ rejects r2 w2).
Proof.
  intros Hp Hh Ht.
  assert (admits r1 w1 ↔ admits r2 w2) as Ha
    by (by rewrite !admits_iff, Hp, Hh, Ht).
  split; [done|]. by rewrite !rejects_iff, Ha, Hp.
Qed.

Lemma gate_reads_path_and_header_witness :
  (admits (request_ "GET" "/model/info" (Some "Bearer S") None)
     (world (Some "S") None)
   ↔ admits (request_ "OPTIONS" "/model/info" (Some "Bearer S") (Some (JObj [])))
       (world (Some "S") (Some model3))) ∧
  (rejects (request_ "GET" "/model/info" (Some "Bearer S") None)
     (world (Some "S") None)
   ↔ rejects (request_ "OPTIONS" "/model/info" (Some "Bearer S") (Some (JObj [])))
       (world (Some "S") (Some model3))).
Proof.
  apply (gate_reads_path_and_header
           (request_ "GET" "/model/info" (Some "Bearer S") None)
           (request_ "OPTIONS" "/model/info" (Some "Bearer S") (Some (JObj [])))
           (world (Some "S") None) (world (Some "S") (Some model3)));
    reflexivity.
Defined.

(** ** Startup and shutdown *)

(** When the load fails, [lifespan] raises the error of the load after
    printing it: the model is not set, nothing is served whatever was to be
    served, and the shutdown line is not printed. *)
Theorem lifespan_load_failure {A} (load : string → exn + SentenceTransformer)
    (serving : M A) (w : World) (e : exn) :
  load MODEL_NAME = inl e →
  lifespan load serving w
  = (Raised e,
     extend [Stdout "[Embedding Service] 🚀 Starting embedding service...";
             Stdout ("[Embedding Service] 📦 Loading model: " +:+ MODEL_NAME);
             Stdout "[Embedding Service] ⏳ This may take 30-60 seconds on first run...";
             LoadModel MODEL_NAME;
             Stdout ("[Embedding Service] ❌ Failed to load model: " +:+ str e)] w).
Proof.
  intros Hl. unfold lifespan. unfold_monad. rewrite Hl.
  cbn [fst snd]. f_equal. unfold extend, emit. cbn [AUTH_TOKEN model trace].
  by rewrite <- !(assoc_L (++)).
Qed.

Lemma lifespan_load_failure_witness :
  lifespan (λ _, inl (Exception "no such model"))
    (app (request_ "GET" "/health" None None)) (world None None)
  = (Raised (Exception "no such model"),
     extend [Stdout "[Embedding Service] 🚀 Starting embedding service...";
             Stdout ("[Embedding Service] 📦 Loading model: " +:+ MODEL_NAME);
             Stdout "[Embedding Service] ⏳ This may take 30-60 seconds on first run...";
             LoadModel MODEL_NAME;
             Stdout ("[Embedding Service] ❌ Failed to load model: "
                     +:+ str (Exception "no such model"))] (world None None)).
Proof.
  apply (lifespan_load_failure (λ _, inl (Exception "no such model"))
           (app (request_ "GET" "/health" None None)) (world None None)
           (Exception "no such model")).
  reflexivity.
Defined.

(** When the load succeeds, [lifespan] sets [model] to the loaded model
    before anything is served, leaves [AUTH_TOKEN] alone, and prints the
    model's dimension.  What is served runs in that world; the shutdown line
    is printed after it has returned, and is not printed when it raised. *)
Theorem lifespan_serves_loaded {A} (load : string → exn + SentenceTransformer)
    (serving : M A) (w : World) (m : SentenceTransformer) :
  load MODEL_NAME = inr m →
  lifespan load serving w
  = match serving
            {| AUTH_TOKEN := AUTH_TOKEN w;
               model := Some m;
               trace :=
                 trace w ++
                 [Stdout "[Embedding Service] 🚀 Starting embedding service...";
                  Stdout ("[Embedding Service] 📦 Loading model: " +:+ MODEL_NAME);
                  Stdout "[Embedding Service] ⏳ This may take 30-60 seconds on first run...";
                  LoadModel MODEL_NAME;
                  Stdout "[Embedding Service] ✅ Model loaded successfully!";
                  Stdout ("[Embedding Service] 📊 Dimensions: "
                          +:+ pretty (get_sentence_embedding_dimension m));
                  Stdout "[Embedding Service] 🌍 Languages: 100+"] |}
    with
    | (Ok served, w') =>
        (Ok served,
         emit (Stdout "[Embedding Service] 👋 Shutting down embedding service...") w')
    | (Raised e, w') => (Raised e, w')
    end.
Proof.
  intros Hl. unfold lifespan. unfold_monad. rewrite Hl.
  unfold modify, set_model, emit. cbn [AUTH_TOKEN model trace].
  rewrite <- !(assoc_L (++)).
  by destruct (serving _) as [[served|e] w'].
Qed.

Lemma lifespan_serves_loaded_witness :
  ∃ response w',
    lifespan (λ _, inr model3)
      (app (request_ "POST" "/embed" None (Some (JObj [("text", JStr "hello")]))))
      (world None None)
    = (Ok response, w') ∧
    status_code response = 200 ∧
    last (trace w')
    = Some (Stdout "[Embedding Service] 👋 Shutting down embedding service...").
Proof.
  rewrite (lifespan_serves_loaded (λ _, inr model3)
             (app (request_ "POST" "/embed" None (Some (JObj [("text", JStr "hello")]))))
             (world None None) model3 eq_refl).
  vm_compute. eexists _, _. repeat split.
Defined.

(** ** No 503 once started *)

Lemma loaded_never_503 (request : Request) (w : World) response w' :
  is_Some (model w) → app request w = (Ok response, w') →
  status_code response ≠ 503.
Proof.
  intros [m Hm] Happ.
  destruct (app_cases request w) as (response' & w1 & Happ' & Hcases).
  rewrite Happ in Happ'. injection Happ' as <- <-.
  destruct Hcases as [(_ & _ & ->)|[(_ & _ & ->)|(_ & status & c & -> & Hrt)]];
    [done|done|]. simpl.
  destruct (router_cases request w) as (status' & c' & w'' & Hrt' & Hdetail & Hcases).
  rewrite Hrt in Hrt'. injection Hrt' as <- <- <-.
  destruct Hcases
    as [[_ Hs]|[(_ & -> & _)|[(_ & _ & Hn)|[(? & ? & Hc)|(? & ? & Hc)]]]];
    [|done|congruence|..].
  - intros ->. revert Hs. rewrite !elem_of_cons.
    by intros [|[|[|[|[|[]%elem_of_nil]]]]].
  - by destruct Hc as (_ & _ & _ & _ & _ & [-> | ->]).
  - by destruct Hc as (_ & _ & _ & _ & _ & [-> | ->]).
Qed.

Lemma mapM_app_loaded (requests : list Request) (w : World) m :
  model w = Some m →
  ∃ responses w',
    mapM app requests w = (Ok responses, w') ∧
    model w' = Some m ∧
    Forall2 (λ _ response, status_code response ≠ 503) requests responses.
Proof.
  revert w. induction requests as [|request requests IH]; intros w Hm.
  - by exists [], w.
  - destruct (app_returns request w) as (response & new & Happ).
    destruct (IH (extend new w) Hm) as (responses & w' & Hrest & Hm' & Hall).
    exists (response :: responses), w'. split; [|split; [done|]].
    + cbn [mapM]. erewrite bind_ok by exact Happ.
      erewrite bind_ok by exact Hrest. done.
    + constructor; [|done].
      eapply (loaded_never_503 request w); [by rewrite Hm|exact Happ].
Qed.

(** Whatever requests are served, one after the other, between startup and
    shutdown, none is answered 503, and the model they are served with is the
    one that was loaded; when the load fails none is served at all. *)
Theorem no_503_under_lifespan (load : string → exn + SentenceTransformer)
    (requests : list Request) (w : World) :
  match lifespan load (mapM app requests) w with
  | (Ok responses, w') =>
      (∃ m, load MODEL_NAME = inr m ∧ model w' = Some m) ∧
      Forall2 (λ _ response, status_code response ≠ 503) requests responses
  | (Raised e, w') => load MODEL_NAME = inl e ∧ model w' = model w
  end.
Proof.
  destruct (load MODEL_NAME) as [e|m] eqn:Hl.
  - by destruct (lifespan_failed load (mapM app requests) w e Hl) as (w' & -> & ->).
  - destruct (lifespan_loaded load (mapM app requests) w m Hl) as (w1 & Hm1 & ->).
    destruct (mapM_app_loaded requests w1 m Hm1) as (responses & w' & Hrun & Hm & Hall).
    erewrite bind_ok by exact Hrun. unfold_monad. simpl.
    split; [|done]. by exists m.
Qed.

(** ** A single text *)

(** A POST to /embed that the gate admits, with the model loaded and a body
    whose [text] is a non-empty string: the model is asked once, for exactly
    that string, and when it returns a vector the answer is 200 with that
    vector as it is sent (number by number, [null] for NaN and the
    infinities), its length as [dimensions] and the model's name; one line is
    printed. *)
Theorem embed_returns_vector (request : Request) (w : World)
    (m : SentenceTransformer) (fields : list (string * json)) (s : string)
    (v : list float) :
  model w = Some m → admits request w →
  method request = "POST" → path request = "/embed" →
  body request = JSON (JObj fields) → dict_get "text" fields = Some (JStr s) →
  s ≠ "" → encode m s = inr v →
  app request w
  = (Ok (with_cors (JSONResponse 200
           (JObj [("embedding", JArr (json_float <$> v));
                  ("dimensions", JInt (Z.of_nat (length v)));
                  ("model", JStr MODEL_NAME)]))),
     extend [Encode s;
             Stdout ("[Embedding Service] ✅ Generated "
                     +:+ pretty (length v) +:+ "-dimensional embedding")] w).
Proof.
  intros Hmodel Ha Hm Hp Hb Ht Hs He.
  assert (EmbedRequest.validate (body request) = inr {| EmbedRequest.text := s |})
    as Hv.
  { unfold EmbedRequest.validate. rewrite Hb. cbn [read_body]. rewrite Ht.
    rewrite decide_True; [done|]. destruct s; [done|simpl; lia]. }
  apply app_admitted; [done|]. rewrite <- emit_emit.
  by rewrite (router_embed_ok request w _ _ _ Hm Hp Hv
                (embed_encoded {| EmbedRequest.text := s |} w m v Hmodel He)).
Qed.

Lemma embed_returns_vector_witness :
  app (request_ "POST" "/embed" None (Some (JObj [("text", JStr "hello")])))
    (world None (Some model3))
  = (Ok (with_cors (JSONResponse 200
           (JObj [("embedding", JArr (json_float <$> vec3));
                  ("dimensions", JInt (Z.of_nat (length vec3)));
                  ("model", JStr MODEL_NAME)]))),
     extend [Encode "hello";
             Stdout ("[Embedding Service] ✅ Generated "
                     +:+ pretty (length vec3) +:+ "-dimensional embedding")]
       (world None (Some model3))).
Proof.
  apply (embed_returns_vector
           (request_ "POST" "/embed" None (Some (JObj [("text", JStr "hello")])))
           (world None (Some model3)) model3 [("text", JStr "hello")] "hello" vec3).
  - reflexivity.
  - apply (auth_open _ _ "/embed"); [reflexivity|by left].
  - reflexivity.
  - reflexivity.
  - reflexivity.
  - reflexivity.
  - discriminate.
  - reflexivity.
Defined.

(** ** Error bodies *)


(** ** More scenarios *)

(** A newline inside the path: the catch-all route does not match it. *)
Example scenario_newline_in_path :
  status_of (app (request_ "OPTIONS" ("/a" +:+ String newline "b") None None)
               (world None None)) = Some 404.
Proof. vm_compute. reflexivity. Qed.

(** A body that cannot be read is turned down before validation. *)
Example scenario_unreadable_body :
  (app {| method := "POST"; path := "/embed"; url_path := inr "/embed";
          headers := ∅; body := Unreadable |} (world None (Some model3))).1
  = Ok (with_cors (JSONResponse 400
          (JObj [("detail", JStr "There was an error parsing the body")]))).
Proof. vm_compute. reflexivity. Qed.

(** Numbers that are not finite are sent as [null]. *)
Example scenario_not_finite :
  json_float <$> [0.5%float; PrimFloat.nan; PrimFloat.infinity; PrimFloat.neg_infinity]
  = [JFloat 0.5; JNull; JNull; JNull].
Proof. vm_compute. reflexivity. Qed.
